(** * crud.py: a Flask proxy in front of the Backendless table UsersDB

    The development embeds the handlers of [crud.py] as functions over JSON
    values.  Dictionaries are finite maps, the one outbound HTTP call of a
    handler is recorded in a log, and Python exceptions are explicit results.
    The HTTP client ([requests]), the text-to-integer conversion [int] and the
    JSON parser are the environment: the first two are parameters of the
    handlers, and a body (of a request or of a response) comes with the
    outcome of parsing it. *)

From Stdlib Require Import ZArith String Ascii List Floats.PrimFloat.
From stdpp Require Import gmap strings list fin_maps pretty.

#[local] Set Warnings "-register-all".
#[local] Open Scope Z_scope.
#[local] Open Scope string_scope.

(** ** Python values and exceptions *)

Module Py.

(** What [json.loads] produces: [None], [bool], [int], [float], [str],
    [list] and [dict] with string keys. *)
Inductive json : Type :=
  | JNull
  | JBool (b : bool)
  | JInt (n : Z)
  | JFloat (x : float)
  | JStr (s : string)
  | JArr (items : list json)
  | JObj (fields : gmap string json).

(** The exceptions that reach the handlers.  [HTTPException] is what
    [flask.abort] raises; Flask answers it with the given status code. *)
Inductive exn : Type :=
  | TypeError
  | KeyError
  | ValueError
  | JSONDecodeError
  | ConnectionError
  | HTTPException (code : Z) (description : string).

Inductive result (A : Type) : Type :=
  | Ok (a : A)
  | Raise (e : exn).
Arguments Ok {A} a.
Arguments Raise {A} e.

Definition bind {A B} (m : result A) (k : A -> result B) : result B :=
  match m with
  | Ok a => k a
  | Raise e => Raise e
  end.

(** Truth value of an object, as [or], [if] and [not] test it. *)
Definition truthy (j : json) : bool :=
  match j with
  | JNull => false
  | JBool b => b
  | JInt n => negb (n =? 0)%Z
  | JFloat x => negb (PrimFloat.eqb x 0%float)
  | JStr s => negb (String.eqb s "")
  | JArr items => match items with [] => false | _ :: _ => true end
  | JObj fields => negb (bool_decide (fields = ∅))
  end.

(** [a or b] *)
Definition or_else (a b : json) : json := if truthy a then a else b.

(** [needle in hay] on two strings: substring test. *)
Fixpoint str_contains (needle hay : string) : bool :=
  String.prefix needle hay
  || match hay with
     | EmptyString => false
     | String _ rest => str_contains needle rest
     end.

(** [k == item] for a string [k]: only an equal string is equal to it. *)
Definition str_eq_json (k : string) (item : json) : bool :=
  match item with
  | JStr s => String.eqb k s
  | _ => false
  end.

(** [k in data] for a string [k]: key test on a dict, element test on a
    list, substring test on a string; the other values are not containers. *)
Definition contains (k : string) (data : json) : result bool :=
  match data with
  | JObj fields => Ok (bool_decide (is_Some (fields !! k)))
  | JArr items => Ok (existsb (str_eq_json k) items)
  | JStr s => Ok (str_contains k s)
  | JNull | JBool _ | JInt _ | JFloat _ => Raise TypeError
  end.

(** The test [k in data] holds, or cannot be made: the cases in which the
    loop of [pick_user_fields] goes on to [data[k]] or stops at the test. *)
Definition trips (data : json) (k : string) : bool :=
  match contains k data with
  | Ok false => false
  | _ => true
  end.

(** [data[k]] for a string [k]: only a dict can be indexed by a string. *)
Definition getitem (data : json) (k : string) : result json :=
  match data with
  | JObj fields =>
      match fields !! k with
      | Some v => Ok v
      | None => Raise KeyError
      end
  | _ => Raise TypeError
  end.

(** Field of an object, [None] on anything else (used to read results). *)
Definition field (k : string) (j : json) : option json :=
  match j with
  | JObj fields => fields !! k
  | _ => None
  end.

End Py.
Import Py.

(** ** urllib.parse: [quote_plus], [unquote_plus], [urlencode] *)

Module Urllib.

(** [_ALWAYS_SAFE]: ASCII letters, digits and [_.-~]. *)
Definition always_safe (c : ascii) : bool :=
  let n := nat_of_ascii c in
  ((65 <=? n) && (n <=? 90))%nat
  || ((97 <=? n) && (n <=? 122))%nat
  || ((48 <=? n) && (n <=? 57))%nat
  || (n =? 95)%nat || (n =? 46)%nat || (n =? 45)%nat || (n =? 126)%nat.

Definition hex_digit (n : nat) : ascii :=
  if (n <? 10)%nat then ascii_of_nat (48 + n)%nat else ascii_of_nat (55 + n)%nat.

(** [quote_plus(s)] with the default [safe='']: a safe character is kept, a
    space becomes [+], any other byte becomes [%XX] in upper-case hex.
    Text is the sequence of its UTF-8 bytes. *)
Fixpoint quote_plus (s : string) : string :=
  match s with
  | EmptyString => EmptyString
  | String c rest =>
      if always_safe c then String c (quote_plus rest)
      else if Ascii.eqb c " " then String "+" (quote_plus rest)
      else
        let n := nat_of_ascii c in
        String "%" (String (hex_digit (n / 16)%nat) (String (hex_digit (n mod 16)%nat)
          (quote_plus rest)))
  end.

Definition hex_value (c : ascii) : option nat :=
  let n := nat_of_ascii c in
  if ((48 <=? n) && (n <=? 57))%nat then Some (n - 48)%nat
  else if ((65 <=? n) && (n <=? 70))%nat then Some (n - 55)%nat
  else if ((97 <=? n) && (n <=? 102))%nat then Some (n - 87)%nat
  else None.

(** [unquote_plus(s)]: [+] is a space, [%XX] is the byte XX, a [%] that two
    hex digits do not follow stays. *)
Fixpoint unquote_plus (s : string) : string :=
  match s with
  | EmptyString => EmptyString
  | String c rest =>
      if Ascii.eqb c "+" then String " " (unquote_plus rest)
      else if Ascii.eqb c "%" then
        match rest with
        | String h (String l rest') =>
            match hex_value h, hex_value l with
            | Some a, Some b =>
                String (ascii_of_nat (16 * a + b)%nat) (unquote_plus rest')
            | _, _ => String c (unquote_plus rest)
            end
        | _ => String c (unquote_plus rest)
        end
      else String c (unquote_plus rest)
  end.

(** A value of the dict given to [urlencode]: the handlers put strings and
    integers there. *)
Inductive param : Type :=
  | PStr (s : string)
  | PInt (n : Z).

(** [str(v)] *)
Definition str (v : param) : string :=
  match v with
  | PStr s => s
  | PInt n => pretty n
  end.

(** ['&'.join(parts)] *)
Fixpoint join_amp (parts : list string) : string :=
  match parts with
  | [] => ""
  | [p] => p
  | p :: rest => p +:+ "&" +:+ join_amp rest
  end.

(** [urlencode(query)] for a dict, given as its items in insertion order. *)
Definition urlencode (query : list (string * param)) : string :=
  join_amp (map (fun kv => quote_plus kv.1 +:+ "=" +:+ quote_plus (str kv.2)) query).

(** The characters that [quote_plus] writes: the safe ones, [%] and [+]. *)
Definition written_char (c : ascii) : bool :=
  always_safe c || Ascii.eqb c "%" || Ascii.eqb c "+".

(** [all(p(c) for c in s)] *)
Fixpoint all_chars (p : ascii -> bool) (s : string) : bool :=
  match s with
  | EmptyString => true
  | String c rest => p c && all_chars p rest
  end.

(** [s.count(c)] for a character [c]. *)
Fixpoint count_char (c : ascii) (s : string) : nat :=
  match s with
  | EmptyString => 0%nat
  | String c' rest =>
      if Ascii.eqb c c' then S (count_char c rest) else count_char c rest
  end.

End Urllib.
Import Urllib.

(** ** requests: the outbound call and its response *)

Module Requests.

Inductive verb : Type := GET | POST | PUT | PATCH | DELETE.

(** One outbound call.  [data] is the dict that [json.dumps] serialises into
    the body ([None] when the call has no body). *)
Record call : Type := Call {
  call_verb : verb;
  call_url : string;
  call_headers : list (string * string);
  call_data : option (gmap string json);
}.

(** A response: its status code, its text, and what [resp.json()] gives,
    [None] when the text is not JSON and [resp.json()] raises. *)
Record response : Type := Response {
  status_code : Z;
  text : string;
  json_body : option json;
}.

(** [resp.ok]: [raise_for_status()] raises for 400 <= status < 600. *)
Definition ok (resp : response) : bool :=
  negb ((400 <=? status_code resp)%Z && (status_code resp <? 600)%Z).

End Requests.
Import Requests.

(** ** crud.py *)

Module Crud.

(** *** Config *)

Record config : Type := Config {
  BACKENDLESS_BASE_URL : string;
  APP_ID : option string;
  API_KEY : option string;
}.

(** The module-level reads of the process environment. *)
Definition config_of_env (getenv : string -> option string) : config :=
  {| BACKENDLESS_BASE_URL :=
       default "https://neatpartner-us.backendless.app/api/data/UsersDB"
               (getenv "BACKENDLESS_BASE_URL");
     APP_ID := getenv "BACKENDLESS_APP_ID";
     API_KEY := getenv "BACKENDLESS_API_KEY" |}.

(** Truth value of a string that may be [None], as [os.getenv(name)] and
    [request.args.get(name)] are: there, and not empty. *)
Definition truthy_str (v : option string) : bool :=
  match v with
  | Some s => negb (String.eqb s "")
  | None => false
  end.

Definition DEFAULT_HEADERS (cfg : config) : list (string * string) :=
  ("Content-Type", "application/json")
  :: match APP_ID cfg, API_KEY cfg with
     | Some app_id, Some api_key =>
         if truthy_str (APP_ID cfg) && truthy_str (API_KEY cfg)
         then [("X-Backendless-Application-Id", app_id);
               ("X-Backendless-API-Key", api_key)]
         else []
     | _, _ => []
     end.

(** *** What a handler is *)

(** A handler runs with the log of the outbound calls made so far, and
    either returns or raises. *)
Definition io (A : Type) : Type := list call -> result A * list call.

Definition ret {A} (a : A) : io A := fun log => (Ok a, log).
Definition raise {A} (e : exn) : io A := fun log => (Raise e, log).
Definition lift {A} (r : result A) : io A := fun log => (r, log).
Definition io_bind {A B} (m : io A) (k : A -> io B) : io B :=
  fun log =>
    match m log with
    | (Ok a, log') => k a log'
    | (Raise e, log') => (Raise e, log')
    end.

Notation "'let!' x ':=' m 'in' k" := (io_bind m (fun x => k))
  (at level 10, x name, m at level 100, k at level 200).
Notation "'let?' x ':=' m 'in' k" := (bind m (fun x => k))
  (at level 10, x name, m at level 100, k at level 200).

(** [abort(code, description=...)] *)
Definition abort {A} (code : Z) (description : string) : io A :=
  raise (HTTPException code description).

(** What a view function returns: [jsonify(body), status]. *)
Definition flask_response : Type := json * Z.

(** The outcome of a handler started with an empty log. *)
Definition run {A} (h : io A) : result A * list call := h [].
Definition outcome {A} (h : io A) : result A := (run h).1.
Definition calls {A} (h : io A) : list call := (run h).2.

(** The status line the caller sees: the returned status, the code of an
    [abort], and 500 for any other exception that leaves the handler. *)
Definition http_status (r : result flask_response) : Z :=
  match r with
  | Ok (_, status) => status
  | Raise (HTTPException code _) => code
  | Raise _ => 500
  end.

(** *** Utilidades *)

Definition resp_json (resp : response) : result json :=
  match json_body resp with
  | Some j => Ok j
  | None => Raise JSONDecodeError
  end.

(** [resp.text or "Backendless error"] *)
Definition text_or_default (resp : response) : string :=
  if String.eqb (text resp) "" then "Backendless error" else text resp.

Definition be_error (resp : response) : flask_response :=
  let payload :=
    match resp_json resp with
    | Ok j => j
    | Raise _ => JObj {[ "message" := JStr (text_or_default resp) ]}
    end in
  (JObj {[ "error" := JBool true;
           "status" := JInt (status_code resp);
           "backendless" := payload ]},
   status_code resp).

(** The literal [allowed]; a Python set, iterated here in the written
    order (the result does not depend on the order, see
    [pick_fields_order]). *)
Definition allowed : list string :=
  ["email"; "First Name"; "Last Name"; "ID"; "password"; "username"].

(** The loop [for k in allowed: if k in data: out[k] = data[k]]. *)
Fixpoint pick_fields (keys : list string) (data : json)
    (out : gmap string json) : result (gmap string json) :=
  match keys with
  | [] => Ok out
  | k :: keys' =>
      let? present := contains k data in
      if (present : bool) then
        let? v := getitem data k in
        pick_fields keys' data (<[k := v]> out)
      else pick_fields keys' data out
  end.

Definition pick_user_fields (data : json) : result (gmap string json) :=
  pick_fields allowed data ∅.

(** *** CRUD endpoints *)

(** [request.args.get(key)]: the first value given for the key. *)
Fixpoint args_get (key : string) (args : list (string * string)) : option string :=
  match args with
  | [] => None
  | (k, v) :: rest => if String.eqb k key then Some v else args_get key rest
  end.

Section Handlers.

(** The configuration read at start-up. *)
Variable cfg : config.
(** The remote service behind [requests]: the response to a call, [None]
    when no response arrives and [requests] raises.  Whichever exception of
    the library that is, it is written [ConnectionError] here. *)
Variable send : call -> option response.
(** [int(s)] on a string: [None] when it raises [ValueError]. *)
Variable int : string -> option Z.

(** The call that [requests.get/post/put/delete(url,
    headers=DEFAULT_HEADERS, data=...)] makes. *)
Definition the_call (v : verb) (url : string)
    (data : option (gmap string json)) : call :=
  Call v url (DEFAULT_HEADERS cfg) data.

Definition requests (v : verb) (url : string)
    (data : option (gmap string json)) : io response :=
  fun log =>
    let c := the_call v url data in
    match send c with
    | Some resp => (Ok resp, (log ++ [c])%list)
    | None => (Raise ConnectionError, (log ++ [c])%list)
    end.

(** [int(request.args.get(key, default))] *)
Definition int_arg (key : string) (default : Z)
    (args : list (string * string)) : result Z :=
  match args_get key args with
  | None => Ok default
  | Some s =>
      match int s with
      | Some n => Ok n
      | None => Raise ValueError
      end
  end.

(** The dict [params] that [list_users] builds, as its items. *)
Definition list_users_params (args : list (string * string))
    : result (list (string * param)) :=
  let? page_size := int_arg "pageSize" 50 args in
  let? offset := int_arg "offset" 0 args in
  let where_ := args_get "where" args in
  let sort_by := args_get "sortBy" args in
  let params := [("pageSize", PInt page_size); ("offset", PInt offset)] in
  let params :=
    match where_ with
    | Some w => if truthy_str where_ then (params ++ [("where", PStr w)])%list else params
    | None => params
    end in
  let params :=
    match sort_by with
    | Some s => if truthy_str sort_by then (params ++ [("sortBy", PStr s)])%list else params
    | None => params
    end in
  Ok params.

Definition list_users (args : list (string * string)) : io flask_response :=
  let! params := lift (list_users_params args) in
  let url := BACKENDLESS_BASE_URL cfg +:+ "?" +:+ urlencode params in
  let! resp := requests GET url None in
  if negb (ok resp) then ret (be_error resp)
  else
    let! body := lift (resp_json resp) in
    ret (body, 200).

Definition get_user (object_id : string) : io flask_response :=
  let url := BACKENDLESS_BASE_URL cfg +:+ "/" +:+ object_id in
  let! resp := requests GET url None in
  if negb (ok resp) then ret (be_error resp)
  else
    let! body := lift (resp_json resp) in
    ret (body, 200).

(** [request.get_json(force=True) or {}] under [try], with
    [abort(400, description="Invalid JSON body")] in the handler of the
    exception.  [body] is the parsed request body, [None] when parsing it
    fails and [get_json] raises. *)
Definition incoming_json (body : option json) : io json :=
  match body with
  | Some j => ret (or_else j (JObj ∅))
  | None => abort 400 "Invalid JSON body"
  end.

Definition create_user (body : option json) : io flask_response :=
  let! incoming := incoming_json body in
  let! payload := lift (pick_user_fields incoming) in
  if negb (bool_decide (is_Some (payload !! "email")))
     || negb (bool_decide (is_Some (payload !! "username")))
  then abort 400 "Fields 'email' and 'username' are required"
  else
    let url := BACKENDLESS_BASE_URL cfg in
    let! resp := requests POST url (Some payload) in
    if negb (ok resp) then ret (be_error resp)
    else
      let! body := lift (resp_json resp) in
      ret (body, 201).

Definition update_user (object_id : string) (body : option json)
    : io flask_response :=
  let! incoming := incoming_json body in
  let! payload := lift (pick_user_fields incoming) in
  if bool_decide (payload = ∅)
  then abort 400 "No updatable fields provided"
  else
    let url := BACKENDLESS_BASE_URL cfg +:+ "/" +:+ object_id in
    let! resp := requests PUT url (Some payload) in
    if negb (ok resp) then ret (be_error resp)
    else
      let! body := lift (resp_json resp) in
      ret (body, 200).

Definition delete_user (object_id : string) : io flask_response :=
  let url := BACKENDLESS_BASE_URL cfg +:+ "/" +:+ object_id in
  let! resp := requests DELETE url None in
  if negb ((status_code resp =? 200)%Z || (status_code resp =? 204)%Z)
  then ret (be_error resp)
  else
    ret (JObj {[ "deleted" := JBool true; "objectId" := JStr object_id ]}, 200).

(** *** Helpers de búsqueda comunes *)

Definition find_by_email (email : string) : io flask_response :=
  let where_ := "email='" +:+ email +:+ "'" in
  let url := BACKENDLESS_BASE_URL cfg +:+ "?"
             +:+ urlencode [("where", PStr where_); ("pageSize", PInt 50);
                            ("offset", PInt 0)] in
  let! resp := requests GET url None in
  if negb (ok resp) then ret (be_error resp)
  else
    let! items := lift (resp_json resp) in
    ret (items, 200).

Definition find_by_username (username : string) : io flask_response :=
  let where_ := "username='" +:+ username +:+ "'" in
  let url := BACKENDLESS_BASE_URL cfg +:+ "?"
             +:+ urlencode [("where", PStr where_); ("pageSize", PInt 50);
                            ("offset", PInt 0)] in
  let! resp := requests GET url None in
  if negb (ok resp) then ret (be_error resp)
  else
    let! items := lift (resp_json resp) in
    ret (items, 200).

(** The tail that the handlers other than [delete_user] share, used to
    state what they do: [if not resp.ok: return be_error(resp)] and
    [return jsonify(resp.json()), status]. *)
Definition relay (resp : response) (status : Z) : io flask_response :=
  if negb (ok resp) then ret (be_error resp)
  else
    let! body := lift (resp_json resp) in
    ret (body, status).

(** *** The routes *)

(** An inbound request: verb, path segments (decoded, without the
    slashes), query arguments in order, and the parsed body. *)
Record request : Type := Request {
  req_verb : verb;
  req_path : list string;
  req_args : list (string * string);
  req_json : option json;
}.

(** A [<name>] variable of a rule matches one segment that is not empty. *)
Definition segment (s : string) : bool := negb (String.eqb s "").

(** The eight [@app.<verb>] rules; [None] when none matches and Flask
    answers by itself.  The verbs are the five that the rules name: HEAD,
    which Werkzeug adds to every GET rule and which runs the same handlers,
    is not among them. *)
Definition dispatch (rq : request) : option (io flask_response) :=
  match req_path rq with
  | [users] =>
      if String.eqb users "users" then
        match req_verb rq with
        | GET => Some (list_users (req_args rq))
        | POST => Some (create_user (req_json rq))
        | _ => None
        end
      else None
  | [users; object_id] =>
      if String.eqb users "users" && segment object_id then
        match req_verb rq with
        | GET => Some (get_user object_id)
        | PUT | PATCH => Some (update_user object_id (req_json rq))
        | DELETE => Some (delete_user object_id)
        | POST => None
        end
      else None
  | [users; which; value] =>
      if String.eqb users "users" && segment value then
        match req_verb rq with
        | GET =>
            if String.eqb which "by-email" then Some (find_by_email value)
            else if String.eqb which "by-username" then Some (find_by_username value)
            else None
        | _ => None
        end
      else None
  | _ => None
  end.

End Handlers.

(** The verb of the outbound call, by the verb of the request: the handler
    of PUT and PATCH calls [requests.put], the others call the function of
    their own verb. *)
Definition out_verb (v : verb) : verb :=
  match v with
  | PATCH => PUT
  | _ => v
  end.

(** The status that goes with a relayed body: 201 in [create_user], 200 in
    the other handlers. *)
Definition ok_status (v : verb) : Z :=
  match v with
  | POST => 201
  | _ => 200
  end.

(** A conversion that accepts an optional sign and decimal digits, used to
    run the handlers on examples; [int] agrees with it on such text. *)
Fixpoint digits (s : string) (acc : Z) : option Z :=
  match s with
  | EmptyString => Some acc
  | String c rest =>
      let n := nat_of_ascii c in
      if ((48 <=? n) && (n <=? 57))%nat
      then digits rest (10 * acc + Z.of_nat (n - 48))%Z
      else None
  end.

Definition decimal_int (s : string) : option Z :=
  match s with
  | EmptyString => None
  | String c rest =>
      if Ascii.eqb c "-" then
        match rest with EmptyString => None | _ => Z.opp <$> digits rest 0 end
      else if Ascii.eqb c "+" then
        match rest with EmptyString => None | _ => digits rest 0 end
      else digits s 0
  end.

End Crud.
Import Crud.

(** ** Running the handlers on examples *)

Module Examples.

(** No variable of the environment is set. *)
Definition cfg0 : config := config_of_env (fun _ => None).

(** A remote service that gives the same response to every call. *)
Definition answer (resp : response) : call -> option response :=
  fun _ => Some resp.

(** The scenario of the specification: [POST /users] with a field outside
    the allow-list, answered 201. *)
Definition new_user : gmap string json :=
  {[ "email" := JStr "a@x.com"; "username" := JStr "a" ]}.
Definition new_user_body : json :=
  JObj (<["extra" := JStr "drop-me"]> new_user).
Definition created : response := Response 201 "{}" (Some (JObj ∅)).
Definition post_new_user : call :=
  Call POST (BACKENDLESS_BASE_URL cfg0) (DEFAULT_HEADERS cfg0) (Some new_user).

(** Responses of the remote service used below. *)
Definition not_found_empty : response := Response 404 "" None.
Definition non_authoritative : response := Response 203 "[]" (Some (JArr [])).
Definition no_content : response := Response 204 "" None.

(** A remote service that cannot be reached. *)
Definition unreachable : call -> option response := fun _ => None.

(** A body with the two required names and nothing of use in them. *)
Definition blank_user : gmap string json :=
  {[ "email" := JNull; "username" := JStr "" ]}.

(** Requests used below. *)
Definition get_42 : request := Request GET ["users"; "42"] [] None.
Definition get_42_call : call :=
  the_call cfg0 GET (BACKENDLESS_BASE_URL cfg0 +:+ "/42") None.
Definition post_new : request :=
  Request POST ["users"] [] (Some new_user_body).
Definition put_42 : request :=
  Request PUT ["users"; "42"] [] (Some new_user_body).
Definition put_42_call : call :=
  the_call cfg0 PUT (BACKENDLESS_BASE_URL cfg0 +:+ "/42") (Some new_user).
Definition list_bad_page : request :=
  Request GET ["users"] [("pageSize", "abc")] None.

End Examples.
Import Examples.

(** ** Facts about the Python layer *)

Section PickFields.

Implicit Types (d out m : gmap string json) (keys : list string).

(** On a dict the loop copies the listed keys that the dict has and leaves
    the rest of [out] alone. *)
Lemma pick_fields_obj keys d :
  ∀ out, ∃ m,
    pick_fields keys (JObj d) out = Ok m
    ∧ ∀ k, m !! k =
           if bool_decide (k ∈ keys)
           then match d !! k with Some v => Some v | None => out !! k end
           else out !! k.
Proof.
  induction keys as [|k0 keys IH]; intros out;
    cbn [pick_fields contains getitem bind].
  - exists out. split; [reflexivity|]. intros k.
    case_bool_decide as Hin; [by apply elem_of_nil in Hin | done].
  - destruct (d !! k0) as [v|] eqn:Hk0; cbn [bind].
    + rewrite bool_decide_eq_true_2 by eauto.
      destruct (IH (<[k0:=v]> out)) as (m & Hm & Hlk).
      exists m. split; [exact Hm|]. intros k. rewrite Hlk.
      destruct (decide (k = k0)) as [->|Hne].
      * rewrite Hk0, lookup_insert_eq.
        rewrite (bool_decide_eq_true_2 (k0 ∈ k0 :: keys)) by left.
        by destruct (bool_decide (k0 ∈ keys)).
      * rewrite lookup_insert_ne by done.
        rewrite (bool_decide_ext (k ∈ k0 :: keys) (k ∈ keys)); [done|].
        rewrite elem_of_cons. split; [by intros [?|?] | by right].
    + rewrite bool_decide_eq_false_2 by (intros [? ?]; done).
      destruct (IH out) as (m & Hm & Hlk).
      exists m. split; [exact Hm|]. intros k. rewrite Hlk.
      destruct (decide (k = k0)) as [->|Hne].
      * rewrite Hk0.
        rewrite (bool_decide_eq_true_2 (k0 ∈ k0 :: keys)) by left.
        by destruct (bool_decide (k0 ∈ keys)).
      * rewrite (bool_decide_ext (k ∈ k0 :: keys) (k ∈ keys)); [done|].
        rewrite elem_of_cons. split; [by intros [?|?] | by right].
Qed.

(** [pick_user_fields] on a dict is the restriction of the dict to the
    allow-list. *)
Lemma pick_user_fields_obj d :
  pick_user_fields (JObj d) = Ok (filter (λ kv, kv.1 ∈ allowed) d).
Proof.
  unfold pick_user_fields.
  destruct (pick_fields_obj allowed d ∅) as (m & -> & Hlk).
  f_equal. apply map_eq. intros k. rewrite Hlk, lookup_empty.
  case_bool_decide as Hin.
  - destruct (d !! k) as [v|] eqn:Hk; symmetry.
    + apply map_lookup_filter_Some. done.
    + apply map_lookup_filter_None. left. done.
  - symmetry. apply map_lookup_filter_None. right. intros v _. exact Hin.
Qed.

Lemma pick_user_fields_obj_lookup d m k :
  pick_user_fields (JObj d) = Ok m →
  m !! k = if bool_decide (k ∈ allowed) then d !! k else None.
Proof.
  unfold pick_user_fields. intros Hm.
  destruct (pick_fields_obj allowed d ∅) as (m' & Hm' & Hlk).
  rewrite Hm in Hm'. injection Hm' as <-.
  rewrite Hlk, lookup_empty. by destruct (d !! k).
Qed.

(** On anything that is not a dict the loop stores nothing: it either
    raises or returns [out] as it was. *)
Lemma pick_fields_not_obj keys data out m :
  (∀ d, data ≠ JObj d) →
  pick_fields keys data out = Ok m → m = out.
Proof.
  intros Hdata. revert out.
  induction keys as [|k0 keys IH]; intros out; simpl.
  - congruence.
  - destruct data as [ | | | | s | items | d]; simpl; try discriminate.
    + destruct (str_contains k0 s); [discriminate | apply IH].
    + destruct (existsb (str_eq_json k0) items); [discriminate | apply IH].
    + by destruct (Hdata d).
Qed.

(** The first test [k in data] that holds, or that cannot be made, is the
    one that raises; no other exception comes out of the loop. *)
Lemma pick_fields_raise keys data out e :
  pick_fields keys data out = Raise e → e = TypeError.
Proof.
  revert out. induction keys as [|k0 keys IH]; intros out;
    cbn [pick_fields].
  - discriminate.
  - destruct data as [ | | | | s | items | d];
      cbn [contains getitem bind]; try congruence.
    + destruct (str_contains k0 s); [congruence | apply IH].
    + destruct (existsb (str_eq_json k0) items); [congruence | apply IH].
    + destruct (d !! k0) as [v|] eqn:Hk0; cbn [bind].
      * rewrite bool_decide_eq_true_2 by eauto. apply IH.
      * rewrite bool_decide_eq_false_2 by (intros [? ?]; done). apply IH.
Qed.

Lemma pick_fields_not_obj_closed keys data out :
  (∀ d, data ≠ JObj d) →
  pick_fields keys data out
  = if existsb (trips data) keys then Raise TypeError else Ok out.
Proof.
  intros Hdata. induction keys as [|k0 keys IH]; cbn [pick_fields existsb].
  - reflexivity.
  - unfold trips at 1.
    destruct data as [ | | | | s | items | d];
      cbn [contains getitem bind orb]; try reflexivity.
    + destruct (str_contains k0 s); [reflexivity | exact IH].
    + destruct (existsb (str_eq_json k0) items); [reflexivity | exact IH].
    + by destruct (Hdata d).
Qed.

Lemma existsb_Permutation {A} (f : A → bool) (l l' : list A) :
  l ≡ₚ l' → existsb f l = existsb f l'.
Proof.
  induction 1 as [|x l l' _ IH|x y l|l l' l'' _ IH1 _ IH2]; cbn [existsb].
  - reflexivity.
  - by rewrite IH.
  - by destruct (f x), (f y).
  - congruence.
Qed.

(** The order in which the set [allowed] is iterated does not matter. *)
Lemma pick_fields_order keys keys' data :
  keys ≡ₚ keys' → pick_fields keys data ∅ = pick_fields keys' data ∅.
Proof.
  intros Hperm.
  destruct data as [ | | | | s | items | d].
  1-6: rewrite !pick_fields_not_obj_closed by done;
       by rewrite (existsb_Permutation _ _ _ Hperm).
  destruct (pick_fields_obj keys d ∅) as (m & -> & Hm).
  destruct (pick_fields_obj keys' d ∅) as (m' & -> & Hm').
  f_equal. apply map_eq. intros k. rewrite Hm, Hm'.
  rewrite (bool_decide_ext (k ∈ keys) (k ∈ keys')); [done|].
  by rewrite Hperm.
Qed.

End PickFields.

(** ** Facts about the query string *)

Section QueryString.

(** What [quote_plus] writes, [unquote_plus] reads back. *)
Lemma unquote_plus_quote_plus (s : string) :
  unquote_plus (quote_plus s) = s.
Proof.
  induction s as [|c s IH]; [reflexivity|].
  rewrite <- IH at 2. destruct c as [[] [] [] [] [] [] [] []]; reflexivity.
Qed.

Lemma append_nil_r (s : string) : s +:+ "" = s.
Proof.
  induction s as [|c s IH]; [done|].
  change (String c (s +:+ "") = String c s). by rewrite IH.
Qed.

Lemma append_assoc (s t u : string) : (s +:+ t) +:+ u = s +:+ t +:+ u.
Proof.
  induction s as [|c s IH]; [done|].
  change (String c ((s +:+ t) +:+ u) = String c (s +:+ t +:+ u)).
  by rewrite IH.
Qed.

(** Every item of the dict is one [key=value] component of the query. *)
Lemma urlencode_component (query : list (string * param)) k v :
  (k, v) ∈ query →
  ∃ before after,
    urlencode query
    = before +:+ (quote_plus k +:+ "=" +:+ quote_plus (str v)) +:+ after.
Proof.
  unfold urlencode.
  induction query as [|[k0 v0] query IH]; intros Hin.
  - by apply elem_of_nil in Hin.
  - apply elem_of_cons in Hin as [[= <- <-]|Hin].
    + exists "". cbn [map join_amp fst snd].
      destruct (map _ query) as [|p rest].
      * exists "". cbn [String.append join_amp]. by rewrite append_nil_r.
      * by exists ("&" +:+ join_amp (p :: rest)).
    + destruct (IH Hin) as (before & after & Heq).
      cbn [map join_amp fst snd]. destruct (map _ query) as [|p rest] eqn:Hmap.
      * by destruct query; [apply elem_of_nil in Hin | discriminate].
      * exists ((quote_plus k0 +:+ "=" +:+ quote_plus (str v0)) +:+ "&" +:+ before), after.
        rewrite Heq. by rewrite !append_assoc.
Qed.

End QueryString.

(** ** The handlers *)

Section HandlerFacts.

Variable cfg : config.
Variable send : call -> option response.
Variable int : string -> option Z.

Implicit Types (d payload : gmap string json) (j : json) (c : call).

(** Unfolds a handler down to the calls of [send] and the tests it makes. *)
Ltac unfold_io :=
  unfold calls, outcome, run, relay, incoming_json, requests, io_bind, lift,
    ret, abort, raise in *.

(** A payload that gets past the presence checks comes from a dict. *)
Lemma forwardable_payload j payload :
  pick_user_fields (or_else j (JObj ∅)) = Ok payload →
  payload ≠ ∅ →
  ∃ d, j = JObj d
       ∧ ∀ k, payload !! k = if bool_decide (k ∈ allowed) then d !! k else None.
Proof.
  unfold or_else. intros Hpick Hne.
  destruct (truthy j) eqn:Htruthy.
  - destruct j as [ | | | | s | items | d].
    1-6: by apply pick_fields_not_obj in Hpick.
    exists d. split; [reflexivity|].
    intros k. by apply pick_user_fields_obj_lookup.
  - destruct Hne. apply map_eq. intros k.
    rewrite (pick_user_fields_obj_lookup _ _ k Hpick), lookup_empty.
    by case_bool_decide.
Qed.

(** The one outbound call of a handler and what the handler makes of the
    response. *)
Lemma run_forward (v : verb) (url : string) data (status : Z) :
  run (let! resp := requests cfg send v url data in relay resp status)
  = (match send (the_call cfg v url data) with
     | Some resp =>
         if ok resp then
           match json_body resp with
           | Some body => Ok (body, status)
           | None => Raise JSONDecodeError
           end
         else Ok (be_error resp)
     | None => Raise ConnectionError
     end,
     [the_call cfg v url data]).
Proof.
  unfold_io. unfold the_call, resp_json.
  destruct (send _) as [resp|]; [|reflexivity].
  destruct (ok resp); [|reflexivity].
  by destruct (json_body resp).
Qed.

Lemma run_create_user (body : option json) :
  run (create_user cfg send body)
  = match body with
    | None => (Raise (HTTPException 400 "Invalid JSON body"), [])
    | Some j =>
        match pick_user_fields (or_else j (JObj ∅)) with
        | Raise e => (Raise e, [])
        | Ok payload =>
            if bool_decide (is_Some (payload !! "email"))
               && bool_decide (is_Some (payload !! "username"))
            then run (let! resp := requests cfg send POST
                                     (BACKENDLESS_BASE_URL cfg) (Some payload) in
                      relay resp 201)
            else (Raise (HTTPException 400
                           "Fields 'email' and 'username' are required"), [])
        end
    end.
Proof.
  unfold create_user, run, incoming_json, io_bind at 1 2, lift, abort, raise, ret.
  destruct body as [j|]; [|reflexivity].
  destruct (pick_user_fields _) as [payload|e]; [|reflexivity].
  by destruct (bool_decide (is_Some (payload !! "email"))),
              (bool_decide (is_Some (payload !! "username"))).
Qed.

Lemma run_update_user (object_id : string) (body : option json) :
  run (update_user cfg send object_id body)
  = match body with
    | None => (Raise (HTTPException 400 "Invalid JSON body"), [])
    | Some j =>
        match pick_user_fields (or_else j (JObj ∅)) with
        | Raise e => (Raise e, [])
        | Ok payload =>
            if bool_decide (payload = ∅)
            then (Raise (HTTPException 400 "No updatable fields provided"), [])
            else run (let! resp := requests cfg send PUT
                         (BACKENDLESS_BASE_URL cfg +:+ "/" +:+ object_id)
                         (Some payload) in
                      relay resp 200)
        end
    end.
Proof.
  unfold update_user, run, incoming_json, io_bind at 1 2, lift, abort, raise, ret.
  destruct body as [j|]; [|reflexivity].
  destruct (pick_user_fields _) as [payload|e]; [|reflexivity].
  by destruct (bool_decide (payload = ∅)).
Qed.

(** C1: whatever [create_user] or [update_user] sends to the remote service
    is the body of the request, a JSON object, restricted to the allow-list:
    a field named in [allowed] is sent with the value it came with, and no
    other field is sent. *)
Theorem forwarded_payload_allow_list (body : option json) (object_id : string) c :
  c ∈ calls (create_user cfg send body)
  ∨ c ∈ calls (update_user cfg send object_id body) →
  ∃ d payload,
    body = Some (JObj d)
    ∧ call_data c = Some payload
    ∧ ∀ k, payload !! k = if bool_decide (k ∈ allowed) then d !! k else None.
Proof.
  unfold calls. rewrite run_create_user, run_update_user.
  destruct body as [j|]; cbn [fst snd];
    [|by intros [Hin|Hin]; apply elem_of_nil in Hin].
  destruct (pick_user_fields (or_else j (JObj ∅))) as [payload|e] eqn:Hpick;
    cbn [fst snd]; [|by intros [Hin|Hin]; apply elem_of_nil in Hin].
  rewrite !run_forward.
  intros [Hin|Hin].
  - destruct (payload !! "email") as [v|] eqn:Hemail;
      [|by apply elem_of_nil in Hin].
    destruct (forwardable_payload j payload Hpick) as (d & -> & Hlk).
    { intros ->. by rewrite lookup_empty in Hemail. }
    destruct (bool_decide (is_Some (payload !! "username")));
      [|by apply elem_of_nil in Hin].
    apply list_elem_of_singleton in Hin as ->. by exists d, payload.
  - case_bool_decide as Hempty; [by apply elem_of_nil in Hin|].
    destruct (forwardable_payload j payload Hpick Hempty) as (d & -> & Hlk).
    apply list_elem_of_singleton in Hin as ->. by exists d, payload.
Qed.

Lemma run_list_users (args : list (string * string)) :
  run (list_users cfg send int args)
  = match list_users_params int args with
    | Ok params =>
        run (let! resp := requests cfg send GET
                            (BACKENDLESS_BASE_URL cfg +:+ "?" +:+ urlencode params)
                            None in
             relay resp 200)
    | Raise e => (Raise e, [])
    end.
Proof.
  unfold list_users, run, io_bind at 1, lift.
  by destruct (list_users_params int args).
Qed.

Lemma run_delete_user (object_id : string) :
  run (delete_user cfg send object_id)
  = let c := the_call cfg DELETE (BACKENDLESS_BASE_URL cfg +:+ "/" +:+ object_id) None in
    (match send c with
     | Some resp =>
         if (status_code resp =? 200)%Z || (status_code resp =? 204)%Z
         then Ok (JObj {[ "deleted" := JBool true; "objectId" := JStr object_id ]},
                  200)
         else Ok (be_error resp)
     | None => Raise ConnectionError
     end, [c]).
Proof.
  unfold delete_user. unfold_io. cbn zeta.
  destruct (send _) as [resp|]; [|reflexivity].
  by destruct ((status_code resp =? 200)%Z || (status_code resp =? 204)%Z).
Qed.

(** Bodies that are JSON objects: [create_user] stops with 400 exactly when
    [email] or [username] is missing, and otherwise sends the allow-listed
    fields. *)
Lemma create_user_object_body d :
  run (create_user cfg send (Some (JObj d)))
  = if bool_decide (is_Some (d !! "email"))
       && bool_decide (is_Some (d !! "username"))
    then run (let! resp := requests cfg send POST (BACKENDLESS_BASE_URL cfg)
                             (Some (filter (λ kv, kv.1 ∈ allowed) d)) in
              relay resp 201)
    else (Raise (HTTPException 400
                   "Fields 'email' and 'username' are required"), []).
Proof.
  rewrite run_create_user.
  assert (or_else (JObj d) (JObj ∅) = JObj d) as ->.
  { unfold or_else. cbn [truthy]. by case_bool_decide; subst. }
  destruct (pick_user_fields (JObj d)) as [payload|e] eqn:Hpick.
  - rewrite !(pick_user_fields_obj_lookup _ _ _ Hpick).
    rewrite pick_user_fields_obj in Hpick. injection Hpick as <-.
    reflexivity.
  - by rewrite pick_user_fields_obj in Hpick.
Qed.

(** Bodies that are JSON objects: [update_user] stops with 400 exactly when
    no allow-listed field is left, and otherwise sends those that are. *)
Lemma update_user_object_body (object_id : string) d :
  run (update_user cfg send object_id (Some (JObj d)))
  = if bool_decide (filter (λ kv, kv.1 ∈ allowed) d = ∅)
    then (Raise (HTTPException 400 "No updatable fields provided"), [])
    else run (let! resp := requests cfg send PUT
                 (BACKENDLESS_BASE_URL cfg +:+ "/" +:+ object_id)
                 (Some (filter (λ kv, kv.1 ∈ allowed) d)) in
              relay resp 200).
Proof.
  rewrite run_update_user.
  assert (or_else (JObj d) (JObj ∅) = JObj d) as ->.
  { unfold or_else. cbn [truthy]. by case_bool_decide; subst. }
  by rewrite pick_user_fields_obj.
Qed.

(** Bodies that are JSON but not objects, and not replaced by [{}]: the
    loop of [pick_user_fields] raises [TypeError] when one of the allowed
    names is in the list or the string, or when the body is a number or
    [true]; otherwise nothing is picked and the handler stops with 400. *)
Lemma create_user_non_object_body j :
  (∀ d, j ≠ JObj d) → truthy j = true →
  run (create_user cfg send (Some j))
  = if existsb (trips j) allowed then (Raise TypeError, [])
    else (Raise (HTTPException 400
                   "Fields 'email' and 'username' are required"), []).
Proof.
  intros Hj Htruthy. rewrite run_create_user.
  unfold or_else, pick_user_fields. rewrite Htruthy.
  rewrite pick_fields_not_obj_closed by done.
  by destruct (existsb (trips j) allowed).
Qed.

Lemma update_user_non_object_body (object_id : string) j :
  (∀ d, j ≠ JObj d) → truthy j = true →
  run (update_user cfg send object_id (Some j))
  = if existsb (trips j) allowed then (Raise TypeError, [])
    else (Raise (HTTPException 400 "No updatable fields provided"), []).
Proof.
  intros Hj Htruthy. rewrite run_update_user.
  unfold or_else, pick_user_fields. rewrite Htruthy.
  rewrite pick_fields_not_obj_closed by done.
  by destruct (existsb (trips j) allowed).
Qed.

(** C2: a request body that is valid JSON but not an object, here the
    number 5, makes [create_user] raise [TypeError] in [pick_user_fields]:
    the caller gets neither the 400 of a rejected body nor a forwarded
    request, but status 500. *)
Theorem create_user_number_body :
  run (create_user cfg send (Some (JInt 5))) = (Raise TypeError, [])
  ∧ http_status (outcome (create_user cfg send (Some (JInt 5)))) = 500.
Proof.
  unfold outcome. rewrite run_create_user. split; reflexivity.
Qed.

(** C3: the same body makes [update_user] raise [TypeError], on the PUT
    route and on the PATCH route alike: neither a 400 nor a forwarded
    request. *)
Theorem update_user_number_body :
  let body := Some (JInt 5) in
  dispatch cfg send int (Request PUT ["users"; "42"] [] body)
  = Some (update_user cfg send "42" body)
  ∧ dispatch cfg send int (Request PATCH ["users"; "42"] [] body)
    = Some (update_user cfg send "42" body)
  ∧ run (update_user cfg send "42" body) = (Raise TypeError, [])
  ∧ http_status (outcome (update_user cfg send "42" body)) = 500.
Proof.
  unfold outcome. rewrite run_update_user. split_and!; reflexivity.
Qed.

(** C10: a body that is the JSON literal [null] is replaced by the empty
    object, so [create_user] and [update_user] both stop with status 400
    and make no outbound call. *)
Theorem null_body_rejected (object_id : string) :
  or_else JNull (JObj ∅) = JObj ∅
  ∧ run (create_user cfg send (Some JNull))
    = (Raise (HTTPException 400 "Fields 'email' and 'username' are required"), [])
  ∧ run (update_user cfg send object_id (Some JNull))
    = (Raise (HTTPException 400 "No updatable fields provided"), [])
  ∧ http_status (outcome (create_user cfg send (Some JNull))) = 400
  ∧ http_status (outcome (update_user cfg send object_id (Some JNull))) = 400.
Proof.
  unfold outcome. rewrite run_create_user, run_update_user.
  split_and!; reflexivity.
Qed.

(** The envelope that [be_error] builds. *)
Lemma be_error_envelope (resp : response) :
  ∃ b,
    be_error resp
    = (JObj {[ "error" := JBool true;
               "status" := JInt (status_code resp);
               "backendless" := b ]},
       status_code resp)
    ∧ (∀ j, json_body resp = Some j → b = j)
    ∧ (json_body resp = None → text resp ≠ "" →
       b = JObj {[ "message" := JStr (text resp) ]})
    ∧ (json_body resp = None → text resp = "" →
       b = JObj {[ "message" := JStr "Backendless error" ]}).
Proof.
  unfold be_error, resp_json, text_or_default.
  destruct (json_body resp) as [j|]; eexists; (split; [reflexivity|]).
  - split_and!; [congruence | done | done].
  - split_and!; [done | |].
    + intros _ Hne. by rewrite (proj2 (String.eqb_neq _ _) Hne).
    + intros _ ->. reflexivity.
Qed.

(** A response that is not [ok] is neither 200 nor 204. *)
Lemma not_ok_not_deleted (resp : response) :
  ok resp = false →
  (status_code resp =? 200)%Z || (status_code resp =? 204)%Z = false.
Proof. unfold ok. lia. Qed.

(** The handler of a route, by the rule that matched. *)
Lemma dispatch_handler (rq : request) (h : io flask_response) :
  dispatch cfg send int rq = Some h →
  h = list_users cfg send int (req_args rq)
  ∨ h = create_user cfg send (req_json rq)
  ∨ ∃ value,
      h = get_user cfg send value
      ∨ h = update_user cfg send value (req_json rq)
      ∨ h = delete_user cfg send value
      ∨ h = find_by_email cfg send value
      ∨ h = find_by_username cfg send value.
Proof.
  unfold dispatch. intros Hd.
  destruct (req_path rq) as [|users [|x [|y [|? ?]]]]; try discriminate.
  - destruct (String.eqb users "users"); [|discriminate].
    destruct (req_verb rq); simplify_eq; auto.
  - destruct (String.eqb users "users" && segment x); [|discriminate].
    right; right; exists x.
    destruct (req_verb rq); simplify_eq; auto.
  - destruct (String.eqb users "users" && segment y); [|discriminate].
    right; right; exists y.
    destruct (req_verb rq); try discriminate.
    destruct (String.eqb x "by-email"); [simplify_eq; auto 6|].
    destruct (String.eqb x "by-username"); [simplify_eq; auto 6|discriminate].
Qed.

Lemma run_find_by_email (email : string) :
  run (find_by_email cfg send email)
  = run (let! resp := requests cfg send GET
             (BACKENDLESS_BASE_URL cfg +:+ "?where="
              +:+ quote_plus ("email='" +:+ email +:+ "'")
              +:+ "&pageSize=50&offset=0") None in
         relay resp 200).
Proof. reflexivity. Qed.

Lemma run_find_by_username (username : string) :
  run (find_by_username cfg send username)
  = run (let! resp := requests cfg send GET
             (BACKENDLESS_BASE_URL cfg +:+ "?where="
              +:+ quote_plus ("username='" +:+ username +:+ "'")
              +:+ "&pageSize=50&offset=0") None in
         relay resp 200).
Proof. reflexivity. Qed.

(** Whatever the route, a response that is not [ok] comes back as
    [be_error] of it. *)
Lemma not_ok_relayed (rq : request) (h : io flask_response) c (resp : response) :
  dispatch cfg send int rq = Some h →
  c ∈ calls h → send c = Some resp → ok resp = false →
  outcome h = Ok (be_error resp).
Proof.
  intros Hd Hin Hsend Hok. unfold outcome, calls in *.
  assert (Hfwd : ∀ v url data status,
    c ∈ (run (let! resp := requests cfg send v url data in relay resp status)).2 →
    (run (let! resp := requests cfg send v url data in relay resp status)).1
    = Ok (be_error resp)).
  { intros v url data status. rewrite run_forward. cbn [fst snd].
    intros <-%list_elem_of_singleton. by rewrite Hsend, Hok. }
  destruct (dispatch_handler rq h Hd)
    as [->|[->|(value & [->|[->|[->|[->| ->]]]])]].
  - rewrite run_list_users in *.
    destruct (list_users_params int _); [by apply Hfwd|].
    by apply elem_of_nil in Hin.
  - rewrite run_create_user in *.
    destruct (req_json rq); [|by apply elem_of_nil in Hin].
    destruct (pick_user_fields _) as [payload|]; [|by apply elem_of_nil in Hin].
    destruct (_ && _); [by apply Hfwd|by apply elem_of_nil in Hin].
  - by apply Hfwd.
  - rewrite run_update_user in *.
    destruct (req_json rq); [|by apply elem_of_nil in Hin].
    destruct (pick_user_fields _) as [payload|]; [|by apply elem_of_nil in Hin].
    destruct (bool_decide _); [by apply elem_of_nil in Hin|by apply Hfwd].
  - rewrite run_delete_user in *. cbn [fst snd] in *.
    apply list_elem_of_singleton in Hin as <-.
    by rewrite Hsend, (not_ok_not_deleted _ Hok).
  - rewrite run_find_by_email in *. by apply Hfwd.
  - rewrite run_find_by_username in *. by apply Hfwd.
Qed.

(** C4 (amended): on every route, when the remote service answers a call
    with a status that is not a success, the caller gets the envelope
    [{error: true, status: <code>, backendless: <body>}] with the remote
    status code as HTTP status.  [<body>] is the remote body parsed as JSON
    when it parses; otherwise it is [{message: <text>}] for a text that is
    not empty and [{message: "Backendless error"}] for an empty one. *)
Theorem external_failure_envelope (rq : request) (h : io flask_response) c
    (resp : response) :
  dispatch cfg send int rq = Some h →
  c ∈ calls h → send c = Some resp → ok resp = false →
  ∃ b,
    outcome h
    = Ok (JObj {[ "error" := JBool true;
                  "status" := JInt (status_code resp);
                  "backendless" := b ]},
          status_code resp)
    ∧ http_status (outcome h) = status_code resp
    ∧ (∀ j, json_body resp = Some j → b = j)
    ∧ (json_body resp = None → text resp ≠ "" →
       b = JObj {[ "message" := JStr (text resp) ]})
    ∧ (json_body resp = None → text resp = "" →
       b = JObj {[ "message" := JStr "Backendless error" ]}).
Proof.
  intros Hd Hin Hsend Hok.
  rewrite (not_ok_relayed rq h c resp Hd Hin Hsend Hok).
  destruct (be_error_envelope resp) as (b & -> & Hb).
  exists b. split_and!; [reflexivity | reflexivity | apply Hb..].
Qed.


(** C8 (amended): when the remote service answers the call of
    [list_users] with a success whose body is JSON, the caller gets that
    body unchanged with status 200, whatever the remote success status. *)
Theorem list_users_success (args : list (string * string)) c (resp : response) j :
  c ∈ calls (list_users cfg send int args) →
  send c = Some resp → ok resp = true → json_body resp = Some j →
  outcome (list_users cfg send int args) = Ok (j, 200)
  ∧ http_status (outcome (list_users cfg send int args)) = 200.
Proof.
  unfold calls, outcome. rewrite run_list_users.
  destruct (list_users_params int args) as [params|e];
    [|by intros Hin; apply elem_of_nil in Hin].
  rewrite run_forward. cbn [fst snd].
  intros <-%list_elem_of_singleton Hsend Hok Hjson.
  by rewrite Hsend, Hok, Hjson.
Qed.

(** C9: when [pageSize] or [offset] is given and [int] rejects its text,
    [list_users] raises [ValueError] before any outbound call: the caller
    gets status 500, not a 400 and not the error envelope. *)
Theorem list_users_unparseable_argument (args : list (string * string)) :
  (∃ s, args_get "pageSize" args = Some s ∧ int s = None)
  ∨ (∃ s, args_get "offset" args = Some s ∧ int s = None) →
  run (list_users cfg send int args) = (Raise ValueError, [])
  ∧ http_status (outcome (list_users cfg send int args)) = 500.
Proof.
  intros Hbad. unfold outcome. rewrite run_list_users.
  assert (list_users_params int args = Raise ValueError) as ->; [|done].
  unfold list_users_params, int_arg.
  destruct Hbad as [(s & -> & ->)|(s & -> & ->)]; [reflexivity|].
  destruct (args_get "pageSize" args) as [p|]; [|reflexivity].
  by destruct (int p).
Qed.

(** What [params] holds, by the arguments given. *)
Lemma list_users_params_items (args : list (string * string))
    (params : list (string * param)) :
  list_users_params int args = Ok params →
  ∃ page_size offset,
    int_arg int "pageSize" 50 args = Ok page_size
    ∧ int_arg int "offset" 0 args = Ok offset
    ∧ params
      = ([("pageSize", PInt page_size); ("offset", PInt offset)]
         ++ match args_get "where" args with
            | Some w => if String.eqb w "" then [] else [("where", PStr w)]
            | None => []
            end
         ++ match args_get "sortBy" args with
            | Some s => if String.eqb s "" then [] else [("sortBy", PStr s)]
            | None => []
            end)%list.
Proof.
  unfold list_users_params.
  destruct (int_arg int "pageSize" 50 args) as [page_size|]; [|discriminate].
  destruct (int_arg int "offset" 0 args) as [offset|]; [|discriminate].
  cbn [bind]. intros [= <-]. exists page_size, offset.
  split_and!; [reflexivity..|].
  destruct (args_get "where" args) as [w|], (args_get "sortBy" args) as [s|];
    cbn [truthy_str]; repeat (destruct (String.eqb _ ""); cbn [negb]);
    reflexivity.
Qed.

(** C6 (amended): [list_users] makes one GET call whose query is
    [urlencode(params)].  Without query arguments the query is exactly
    [pageSize=50&offset=0].  A [where] or [sortBy] argument whose value is
    not empty is one item of [params] and one URL-encoded
    [name=value] component of the query; [where] and [sortBy] are not in
    the query when the argument is missing or its value is empty. *)
Theorem list_users_query (args : list (string * string))
    (params : list (string * param)) :
  list_users_params int args = Ok params →
  calls (list_users cfg send int args)
  = [the_call cfg GET (BACKENDLESS_BASE_URL cfg +:+ "?" +:+ urlencode params) None]
  ∧ (args = [] →
     BACKENDLESS_BASE_URL cfg +:+ "?" +:+ urlencode params
     = BACKENDLESS_BASE_URL cfg +:+ "?pageSize=50&offset=0")
  ∧ (∀ name value, name = "where" ∨ name = "sortBy" →
     args_get name args = Some value → value ≠ "" →
     (name, PStr value) ∈ params
     ∧ ∃ before after,
         urlencode params
         = before +:+ (name +:+ "=" +:+ quote_plus value) +:+ after)
  ∧ (∀ name, name = "where" ∨ name = "sortBy" →
     args_get name args = None ∨ args_get name args = Some "" →
     name ∉ params.*1).
Proof.
  intros Hparams. split_and!.
  - unfold calls. rewrite run_list_users, Hparams, run_forward. reflexivity.
  - intros ->. injection Hparams as <-. reflexivity.
  - intros name value Hname Hget Hne.
    assert (Hin : (name, PStr value) ∈ params).
    { destruct (list_users_params_items _ _ Hparams) as (p & o & _ & _ & ->).
      apply String.eqb_neq in Hne.
      destruct Hname as [-> | ->]; rewrite Hget, Hne; set_solver. }
    split; [exact Hin|].
    destruct (urlencode_component _ _ _ Hin) as (before & after & ->).
    exists before, after.
    by destruct Hname as [-> | ->].
  - intros name Hname Hget.
    destruct (list_users_params_items _ _ Hparams) as (p & o & _ & _ & ->).
    rewrite !fmap_app, !not_elem_of_app.
    assert (Hnil : name ∉ (@nil (string * param)).*1) by apply not_elem_of_nil.
    destruct Hname as [-> | ->].
    + split_and!.
      * by apply not_elem_of_cons; split; [|apply not_elem_of_cons; split].
      * by destruct Hget as [-> | ->].
      * destruct (args_get "sortBy" args) as [s|]; [|done].
        destruct (String.eqb s ""); [done|].
        by apply not_elem_of_cons.
    + split_and!.
      * by apply not_elem_of_cons; split; [|apply not_elem_of_cons; split].
      * destruct (args_get "where" args) as [w|]; [|done].
        destruct (String.eqb w ""); [done|].
        by apply not_elem_of_cons.
      * by destruct Hget as [-> | ->].
Qed.

(** C7: [find_by_email] and [find_by_username] make one GET call whose
    query is [where=<clause>&pageSize=50&offset=0], where the clause is the
    field name, [='], the path value as it came, and [']; URL-encoded in
    the query, it decodes to that very text. *)
Theorem find_by_where_clause (value : string) :
  let by_email := "email='" +:+ value +:+ "'" in
  let by_username := "username='" +:+ value +:+ "'" in
  calls (find_by_email cfg send value)
  = [the_call cfg GET
       (BACKENDLESS_BASE_URL cfg +:+ "?where=" +:+ quote_plus by_email
        +:+ "&pageSize=50&offset=0") None]
  ∧ calls (find_by_username cfg send value)
    = [the_call cfg GET
         (BACKENDLESS_BASE_URL cfg +:+ "?where=" +:+ quote_plus by_username
          +:+ "&pageSize=50&offset=0") None]
  ∧ unquote_plus (quote_plus by_email) = by_email
  ∧ unquote_plus (quote_plus by_username) = by_username
  ∧ urlencode [("where", PStr by_email); ("pageSize", PInt 50); ("offset", PInt 0)]
    = "where=" +:+ quote_plus by_email +:+ "&pageSize=50&offset=0"
  ∧ urlencode [("where", PStr by_username); ("pageSize", PInt 50); ("offset", PInt 0)]
    = "where=" +:+ quote_plus by_username +:+ "&pageSize=50&offset=0".
Proof.
  intros by_email by_username. unfold calls.
  rewrite run_find_by_email, run_find_by_username, !run_forward.
  split_and!; try reflexivity; apply unquote_plus_quote_plus.
Qed.

End HandlerFacts.

(** ** Counterexamples and instances *)

(** The scenario of the specification, from the request to the answer. *)
Example create_user_scenario :
  run (create_user cfg0 (answer created) (Some new_user_body))
  = (Ok (JObj ∅, 201), [post_new_user]).
Proof. vm_compute. reflexivity. Qed.

(** Bodies that are not objects: a list or a string that holds an allowed
    name raises, a string that holds none is answered 400. *)
Example create_user_list_body :
  run (create_user cfg0 (answer created) (Some (JArr [JStr "email"])))
  = (Raise TypeError, [])
  ∧ run (create_user cfg0 (answer created) (Some (JStr "my username")))
    = (Raise TypeError, [])
  ∧ run (create_user cfg0 (answer created) (Some (JStr "x")))
    = (Raise (HTTPException 400 "Fields 'email' and 'username' are required"), []).
Proof. split_and!; vm_compute; reflexivity. Qed.

(** A quote in the path value goes into the clause as it is. *)
Example find_by_email_quote :
  calls (find_by_email cfg0 (answer non_authoritative) "o'brien@x.com")
  = [the_call cfg0 GET
       "https://neatpartner-us.backendless.app/api/data/UsersDB?where=email%3D%27o%27brien%40x.com%27&pageSize=50&offset=0"
       None]
  ∧ unquote_plus "email%3D%27o%27brien%40x.com%27" = "email='o'brien@x.com'".
Proof. split; reflexivity. Qed.

(** The credential headers go out only when both values are set. *)
Example default_headers_with_keys :
  DEFAULT_HEADERS (Config "http://h/api" (Some "app") (Some "key"))
  = [("Content-Type", "application/json");
     ("X-Backendless-Application-Id", "app");
     ("X-Backendless-API-Key", "key")]
  ∧ DEFAULT_HEADERS (Config "http://h/api" (Some "app") None)
    = [("Content-Type", "application/json")]
  ∧ DEFAULT_HEADERS (Config "http://h/api" (Some "app") (Some ""))
    = [("Content-Type", "application/json")].
Proof. split_and!; reflexivity. Qed.

(** C4: a 404 with an empty body.  The body is not JSON, and the message of
    the envelope is the fixed text, not the (empty) text of the response. *)
Lemma empty_text_message_counterexample :
  ok not_found_empty = false
  ∧ json_body not_found_empty = None
  ∧ outcome (get_user cfg0 (answer not_found_empty) "42")
    = Ok (JObj {[ "error" := JBool true;
                  "status" := JInt 404;
                  "backendless" := JObj {[ "message" := JStr "Backendless error" ]} ]},
          404)
  ∧ outcome (get_user cfg0 (answer not_found_empty) "42")
    ≠ Ok (JObj {[ "error" := JBool true;
                  "status" := JInt 404;
                  "backendless" := JObj {[ "message" := JStr (text not_found_empty) ]} ]},
          404).
Proof.
  split_and!; [reflexivity..|].
  intros Heq.
  apply (f_equal (λ r, match r with
                       | Ok (body, _) =>
                           from_option (field "message") None (field "backendless" body)
                       | Raise _ => None
                       end)) in Heq.
  vm_compute in Heq. discriminate Heq.
Qed.

(** C6: [GET /users?where=]: the argument [where] is supplied, with an
    empty value, and the outbound query has no [where]. *)
Lemma empty_where_counterexample :
  args_get "where" [("where", "")] = Some ""
  ∧ list_users_params decimal_int [("where", "")]
    = Ok [("pageSize", PInt 50); ("offset", PInt 0)]
  ∧ calls (list_users cfg0 (answer non_authoritative) decimal_int [("where", "")])
    = [the_call cfg0 GET
         "https://neatpartner-us.backendless.app/api/data/UsersDB?pageSize=50&offset=0"
         None].
Proof. split_and!; reflexivity. Qed.

(** C8: the remote service answers the list call with 203; the caller gets
    the body with status 200, not 203. *)
Lemma list_status_counterexample :
  ok non_authoritative = true
  ∧ outcome (list_users cfg0 (answer non_authoritative) decimal_int [])
    = Ok (JArr [], 200)
  ∧ http_status (outcome (list_users cfg0 (answer non_authoritative) decimal_int []))
    ≠ status_code non_authoritative.
Proof. split_and!; [reflexivity..|]. vm_compute. discriminate. Qed.

(** The scenario of the specification: the field [extra] is not sent. *)
Lemma forwarded_payload_allow_list_witness :
  ∃ d payload,
    Some new_user_body = Some (JObj d)
    ∧ call_data post_new_user = Some payload
    ∧ ∀ k, payload !! k = if bool_decide (k ∈ allowed) then d !! k else None.
Proof.
  apply (forwarded_payload_allow_list cfg0 (answer created)
           (Some new_user_body) "123" post_new_user).
  left. vm_compute. constructor.
Defined.

Lemma external_failure_envelope_witness :
  ∃ b,
    outcome (get_user cfg0 (answer not_found_empty) "42")
    = Ok (JObj {[ "error" := JBool true;
                  "status" := JInt 404;
                  "backendless" := b ]}, 404)
    ∧ http_status (outcome (get_user cfg0 (answer not_found_empty) "42")) = 404
    ∧ (∀ j, json_body not_found_empty = Some j → b = j)
    ∧ (json_body not_found_empty = None → text not_found_empty ≠ "" →
       b = JObj {[ "message" := JStr (text not_found_empty) ]})
    ∧ (json_body not_found_empty = None → text not_found_empty = "" →
       b = JObj {[ "message" := JStr "Backendless error" ]}).
Proof.
  apply (external_failure_envelope cfg0 (answer not_found_empty) decimal_int
           (Request GET ["users"; "42"] [] None)
           (get_user cfg0 (answer not_found_empty) "42")
           (the_call cfg0 GET (BACKENDLESS_BASE_URL cfg0 +:+ "/42") None)
           not_found_empty).
  - reflexivity.
  - vm_compute. constructor.
  - reflexivity.
  - reflexivity.
Defined.


(** The example of the specification: [where=username='leo']. *)
Lemma list_users_query_witness :
  calls (list_users cfg0 (answer non_authoritative) decimal_int
           [("where", "username='leo'")])
  = [the_call cfg0 GET
       "https://neatpartner-us.backendless.app/api/data/UsersDB?pageSize=50&offset=0&where=username%3D%27leo%27"
       None].
Proof.
  destruct (list_users_query cfg0 (answer non_authoritative) decimal_int
              [("where", "username='leo'")]
              [("pageSize", PInt 50); ("offset", PInt 0);
               ("where", PStr "username='leo'")])
    as [Hcalls _]; [reflexivity|].
  exact Hcalls.
Defined.

Lemma list_users_success_witness :
  outcome (list_users cfg0 (answer non_authoritative) decimal_int [])
  = Ok (JArr [], 200)
  ∧ http_status (outcome (list_users cfg0 (answer non_authoritative) decimal_int []))
    = 200.
Proof.
  apply (list_users_success cfg0 (answer non_authoritative) decimal_int []
           (the_call cfg0 GET
              (BACKENDLESS_BASE_URL cfg0 +:+ "?pageSize=50&offset=0") None)
           non_authoritative (JArr [])).
  - vm_compute. constructor.
  - reflexivity.
  - reflexivity.
  - reflexivity.
Defined.

(** [GET /users?pageSize=abc] *)
Lemma list_users_unparseable_argument_witness :
  run (list_users cfg0 (answer non_authoritative) decimal_int [("pageSize", "abc")])
  = (Raise ValueError, [])
  ∧ http_status (outcome (list_users cfg0 (answer non_authoritative) decimal_int
                            [("pageSize", "abc")])) = 500.
Proof.
  apply (list_users_unparseable_argument cfg0 (answer non_authoritative)
           decimal_int [("pageSize", "abc")]).
  left. exists "abc". split; reflexivity.
Defined.

(** ** More about the field filter *)

Section FieldFilter.

Implicit Types (d m : gmap string json).

(** X1: on a dict, [pick_user_fields] returns a part of the dict with at
    most the six allowed names, and filtering that part again changes
    nothing. *)
Theorem pick_user_fields_idempotent d :
  ∃ m,
    pick_user_fields (JObj d) = Ok m
    ∧ m ⊆ d
    ∧ (∀ k, is_Some (m !! k) → k ∈ allowed)
    ∧ (size m ≤ 6)%nat
    ∧ pick_user_fields (JObj m) = Ok m.
Proof.
  exists (filter (λ kv, kv.1 ∈ allowed) d).
  assert (Hkeys : ∀ k, is_Some (filter (λ kv, kv.1 ∈ allowed) d !! k) →
                       k ∈ allowed).
  { intros k [v Hv]. by apply map_lookup_filter_Some in Hv as [_ Hin]. }
  split_and!.
  - apply pick_user_fields_obj.
  - apply map_filter_subseteq.
  - exact Hkeys.
  - rewrite <- size_dom.
    trans (size (list_to_set (C:=gset string) allowed)).
    + apply subseteq_size. intros k Hk.
      apply elem_of_list_to_set, Hkeys. by apply elem_of_dom.
    + by vm_compute.
  - rewrite pick_user_fields_obj. f_equal.
    apply map_filter_id. intros k v Hv. apply Hkeys. by exists v.
Qed.

(** X2: the set [allowed] may be iterated in any order: the loop gives the
    same dict, or raises the same exception. *)
Theorem pick_user_fields_any_order (keys : list string) (data : json) :
  keys ≡ₚ allowed →
  pick_fields keys data ∅ = pick_user_fields data.
Proof.
  intros Hperm. unfold pick_user_fields.
  destruct data as [ | | | | s | items | d].
  1-6: rewrite !pick_fields_not_obj_closed by done;
       by rewrite (existsb_Permutation _ _ _ Hperm).
  destruct (pick_fields_obj keys d ∅) as (m & -> & Hm).
  destruct (pick_fields_obj allowed d ∅) as (m' & -> & Hm').
  f_equal. apply map_eq. intros k. rewrite Hm, Hm'.
  rewrite (bool_decide_ext (k ∈ keys) (k ∈ allowed)); [done|].
  by rewrite Hperm.
Qed.

(** X3: from data that is not a dict [pick_user_fields] picks nothing: it
    returns the empty dict or raises [TypeError]. *)
Theorem pick_user_fields_not_dict (data : json) :
  (∀ d, data ≠ JObj d) →
  pick_user_fields data = Ok ∅ ∨ pick_user_fields data = Raise TypeError.
Proof.
  intros Hdata. unfold pick_user_fields.
  rewrite pick_fields_not_obj_closed by done.
  destruct (existsb (trips data) allowed); auto.
Qed.

(** X4: [pick_user_fields] raises only [TypeError] (never [KeyError], the
    test [k in data] comes first), and only on data that is not a dict. *)
Theorem pick_user_fields_raises (data : json) (e : exn) :
  pick_user_fields data = Raise e →
  e = TypeError ∧ ∀ d, data ≠ JObj d.
Proof.
  intros Hraise. split; [by eapply pick_fields_raise|].
  intros d ->. by rewrite pick_user_fields_obj in Hraise.
Qed.

End FieldFilter.

(** ** More about the routes *)

Section Routes.

Variable cfg : config.
Variable send : call -> option response.
Variable int : string -> option Z.

Implicit Types (rq : request) (h : io flask_response) (c : call)
  (resp : response) (e : exn).

Lemma list_users_params_raise (args : list (string * string)) e :
  list_users_params int args = Raise e → e = ValueError.
Proof.
  unfold list_users_params, int_arg.
  destruct (args_get "pageSize" args) as [p|]; [destruct (int p)|];
    cbn [bind]; try congruence;
    (destruct (args_get "offset" args) as [o|]; [destruct (int o)|];
     cbn [bind]; congruence).
Qed.

(** What a routed request does: it stops before any call, or it makes one
    call and relays the response, or it is a delete. *)
Lemma dispatch_shape rq h :
  dispatch cfg send int rq = Some h →
  (∃ e, run h = (Raise e, [])
        ∧ (e = TypeError ∨ e = ValueError ∨ ∃ msg, e = HTTPException 400 msg))
  ∨ (∃ url data,
       run h = run (let! resp := requests cfg send (out_verb (req_verb rq)) url data in
                    relay resp (ok_status (req_verb rq)))
       ∧ req_verb rq ≠ DELETE
       ∧ (is_Some data ↔ req_verb rq ≠ GET))
  ∨ (∃ object_id, req_verb rq = DELETE ∧ h = delete_user cfg send object_id).
Proof.
  unfold dispatch, out_verb, ok_status. intros Hd.
  assert (Hcreate : ∀ body, req_verb rq = POST →
    (∃ e, run (create_user cfg send body) = (Raise e, [])
          ∧ (e = TypeError ∨ e = ValueError ∨ ∃ msg, e = HTTPException 400 msg))
    ∨ (∃ url data,
         run (create_user cfg send body)
         = run (let! resp := requests cfg send (out_verb (req_verb rq)) url data in
                relay resp (ok_status (req_verb rq)))
         ∧ req_verb rq ≠ DELETE
         ∧ (is_Some data ↔ req_verb rq ≠ GET))).
  { intros body Hv. rewrite run_create_user, Hv.
    destruct body as [j|]; [|left; eauto 6].
    destruct (pick_user_fields _) as [payload|e] eqn:Hpick.
    - destruct (_ && _); [|left; eauto 6].
      right. eexists _, (Some payload). split_and!; [reflexivity|done|].
      split; [done|eauto].
    - left. exists e. split; [done|]. left. by eapply pick_fields_raise. }
  assert (Hupdate : ∀ value body, req_verb rq = PUT ∨ req_verb rq = PATCH →
    (∃ e, run (update_user cfg send value body) = (Raise e, [])
          ∧ (e = TypeError ∨ e = ValueError ∨ ∃ msg, e = HTTPException 400 msg))
    ∨ (∃ url data,
         run (update_user cfg send value body)
         = run (let! resp := requests cfg send (out_verb (req_verb rq)) url data in
                relay resp (ok_status (req_verb rq)))
         ∧ req_verb rq ≠ DELETE
         ∧ (is_Some data ↔ req_verb rq ≠ GET))).
  { intros value body Hv. rewrite run_update_user.
    destruct body as [j|]; [|left; eauto 6].
    destruct (pick_user_fields _) as [payload|e] eqn:Hpick.
    - destruct (bool_decide _); [left; eauto 6|].
      right. eexists _, (Some payload).
      destruct Hv as [-> | ->]; (split_and!; [reflexivity|done|]);
        (split; [done|eauto]).
    - left. exists e. split; [done|]. left. by eapply pick_fields_raise. }
  assert (Hget : ∀ url, req_verb rq = GET →
    ∃ url' data,
      run (let! resp := requests cfg send GET url None in relay resp 200)
      = run (let! resp := requests cfg send (out_verb (req_verb rq)) url' data in
             relay resp (ok_status (req_verb rq)))
      ∧ req_verb rq ≠ DELETE
      ∧ (is_Some data ↔ req_verb rq ≠ GET)).
  { intros url Hv. exists url, None. rewrite Hv.
    split_and!; [reflexivity|done|]. split; [by intros [? ?]|done]. }
  destruct (req_path rq) as [|users [|x [|y [|? ?]]]]; try discriminate.
  - destruct (String.eqb users "users"); [|discriminate].
    destruct (req_verb rq) eqn:Hv; simplify_eq.
    + rewrite run_list_users.
      destruct (list_users_params int _) as [params|e] eqn:Hparams.
      * right; left. by apply Hget.
      * left. exists e. split; [done|]. right; left.
        by eapply list_users_params_raise.
    + destruct (Hcreate (req_json rq) eq_refl) as [?|?]; auto.
  - destruct (String.eqb users "users" && segment x); [|discriminate].
    destruct (req_verb rq) eqn:Hv; simplify_eq.
    + right; left. by apply (Hget _ eq_refl).
    + destruct (Hupdate x (req_json rq)) as [?|?]; auto.
    + destruct (Hupdate x (req_json rq)) as [?|?]; auto.
    + right; right. by exists x.
  - destruct (String.eqb users "users" && segment y); [|discriminate].
    destruct (req_verb rq) eqn:Hv; try discriminate.
    destruct (String.eqb x "by-email").
    { simplify_eq. right; left. rewrite run_find_by_email. by apply Hget. }
    destruct (String.eqb x "by-username"); [|discriminate].
    simplify_eq. right; left. rewrite run_find_by_username. by apply Hget.
Qed.

(** X5: each handler makes at most one outbound call, with the headers of
    [DEFAULT_HEADERS]: [get_user], [delete_user], [find_by_email] and
    [find_by_username] always make one, without a body, with the verb GET
    (DELETE in [delete_user]); [list_users] makes none or one GET without a
    body; [create_user] makes none or one POST with a body; [update_user]
    makes none or one PUT with a body. *)
Theorem one_call_per_request :
  (∀ args,
     calls (list_users cfg send int args) = []
     ∨ ∃ url, calls (list_users cfg send int args)
              = [Call GET url (DEFAULT_HEADERS cfg) None])
  ∧ (∀ object_id,
       calls (get_user cfg send object_id)
       = [Call GET (BACKENDLESS_BASE_URL cfg +:+ "/" +:+ object_id)
            (DEFAULT_HEADERS cfg) None])
  ∧ (∀ body,
       calls (create_user cfg send body) = []
       ∨ ∃ payload, calls (create_user cfg send body)
                    = [Call POST (BACKENDLESS_BASE_URL cfg)
                         (DEFAULT_HEADERS cfg) (Some payload)])
  ∧ (∀ object_id body,
       calls (update_user cfg send object_id body) = []
       ∨ ∃ payload, calls (update_user cfg send object_id body)
                    = [Call PUT (BACKENDLESS_BASE_URL cfg +:+ "/" +:+ object_id)
                         (DEFAULT_HEADERS cfg) (Some payload)])
  ∧ (∀ object_id,
       calls (delete_user cfg send object_id)
       = [Call DELETE (BACKENDLESS_BASE_URL cfg +:+ "/" +:+ object_id)
            (DEFAULT_HEADERS cfg) None])
  ∧ (∀ value,
       ∃ url, calls (find_by_email cfg send value)
              = [Call GET url (DEFAULT_HEADERS cfg) None])
  ∧ (∀ value,
       ∃ url, calls (find_by_username cfg send value)
              = [Call GET url (DEFAULT_HEADERS cfg) None]).
Proof.
  unfold calls. split_and!.
  - intros args. rewrite run_list_users.
    destruct (list_users_params int args) as [params|e]; [|by left].
    right. rewrite run_forward. by eexists.
  - intros object_id.
    change (run (get_user cfg send object_id))
      with (run (let! resp := requests cfg send GET
                   (BACKENDLESS_BASE_URL cfg +:+ "/" +:+ object_id) None in
                 relay resp 200)).
    by rewrite run_forward.
  - intros body. rewrite run_create_user.
    destruct body as [j|]; [|by left].
    destruct (pick_user_fields _) as [payload|e]; [|by left].
    destruct (_ && _); [|by left].
    right. rewrite run_forward. by exists payload.
  - intros object_id body. rewrite run_update_user.
    destruct body as [j|]; [|by left].
    destruct (pick_user_fields _) as [payload|e]; [|by left].
    destruct (bool_decide _); [by left|].
    right. rewrite run_forward. by exists payload.
  - intros object_id. by rewrite run_delete_user.
  - intros value. rewrite run_find_by_email, run_forward. by eexists.
  - intros value. rewrite run_find_by_username, run_forward. by eexists.
Qed.


(** X7: an exception leaves a routed request in one of three cases.
    Before any call, from the handler's own code: it is then [TypeError],
    [ValueError] or the [abort] with code 400, never [KeyError].  After the
    one call, when [requests] got no response and raised.  After a success
    of the remote service whose body is not JSON, when [resp.json()]
    raised. *)
Theorem exceptions_by_call rq h e :
  dispatch cfg send int rq = Some h →
  outcome h = Raise e →
  (calls h = []
   ∧ (e = TypeError ∨ e = ValueError ∨ ∃ msg, e = HTTPException 400 msg))
  ∨ (∃ c, calls h = [c] ∧ send c = None)
  ∨ (∃ c resp, calls h = [c] ∧ send c = Some resp
               ∧ ok resp = true ∧ json_body resp = None).
Proof.
  intros Hd. unfold calls, outcome.
  destruct (dispatch_shape rq h Hd)
    as [(e' & -> & He')|[(url & data & -> & _)|(id & _ & ->)]].
  - intros [= <-]. by left.
  - rewrite run_forward. cbn [fst snd].
    destruct (send _) as [resp|] eqn:Hsend.
    + destruct (ok resp) eqn:Hok; [|discriminate].
      destruct (json_body resp) eqn:Hjson; [discriminate|].
      intros _. right; right. by eexists _, resp.
    + intros _. right; left. by eexists.
  - rewrite run_delete_user. cbn [fst snd].
    destruct (send _) as [resp|] eqn:Hsend.
    + by destruct (_ || _).
    + intros _. right; left. by eexists.
Qed.

(** X8: on every route but DELETE, a success of the remote service whose
    body is JSON comes back as that body, with status 201 on POST and 200
    otherwise, whatever the remote success status. *)
Theorem success_relayed rq h c resp (j : json) :
  dispatch cfg send int rq = Some h →
  req_verb rq ≠ DELETE →
  c ∈ calls h → send c = Some resp →
  ok resp = true → json_body resp = Some j →
  outcome h = Ok (j, ok_status (req_verb rq)).
Proof.
  intros Hd Hv. unfold calls, outcome.
  destruct (dispatch_shape rq h Hd)
    as [(e & -> & _)|[(url & data & -> & _)|(id & Hdel & _)]].
  - by intros Hin%elem_of_nil.
  - rewrite run_forward. cbn [fst snd].
    intros <-%list_elem_of_singleton Hsend Hok Hjson.
    by rewrite Hsend, Hok, Hjson.
  - done.
Qed.

(** X9: on every route but DELETE, a success of the remote service whose
    body is not JSON (an empty 204, say) makes the handler raise: the
    caller gets status 500 although the remote call succeeded. *)
Theorem success_without_json_raises rq h c resp :
  dispatch cfg send int rq = Some h →
  req_verb rq ≠ DELETE →
  c ∈ calls h → send c = Some resp →
  ok resp = true → json_body resp = None →
  outcome h = Raise JSONDecodeError ∧ http_status (outcome h) = 500.
Proof.
  intros Hd Hv. unfold calls, outcome.
  destruct (dispatch_shape rq h Hd)
    as [(e & -> & _)|[(url & data & -> & _)|(id & Hdel & _)]].
  - by intros Hin%elem_of_nil.
  - rewrite run_forward. cbn [fst snd].
    intros <-%list_elem_of_singleton Hsend Hok Hjson.
    by rewrite Hsend, Hok, Hjson.
  - done.
Qed.

(** X10: when the remote service gives no response to the call, the
    exception of [requests] leaves the handler on every route: status 500,
    no envelope. *)
Theorem unreachable_service_raises rq h c :
  dispatch cfg send int rq = Some h →
  c ∈ calls h → send c = None →
  outcome h = Raise ConnectionError ∧ http_status (outcome h) = 500.
Proof.
  intros Hd. unfold calls, outcome.
  destruct (dispatch_shape rq h Hd)
    as [(e & -> & _)|[(url & data & -> & _)|(id & _ & ->)]].
  - by intros Hin%elem_of_nil.
  - rewrite run_forward. cbn [fst snd].
    intros <-%list_elem_of_singleton Hsend. by rewrite Hsend.
  - rewrite run_delete_user. cbn [fst snd].
    intros <-%list_elem_of_singleton Hsend. by rewrite Hsend.
Qed.

(** X11: the status a caller can get from a routed request is 200, 201,
    400, 500, or the status of the remote response. *)
Theorem status_codes rq h :
  dispatch cfg send int rq = Some h →
  http_status (outcome h) ∈ [200; 201; 400; 500]
  ∨ ∃ c resp, c ∈ calls h ∧ send c = Some resp
              ∧ http_status (outcome h) = status_code resp.
Proof.
  intros Hd. unfold calls, outcome.
  destruct (dispatch_shape rq h Hd)
    as [(e & -> & He)|[(url & data & -> & _)|(id & _ & ->)]].
  - left. cbn [fst]. destruct He as [->|[->|[msg ->]]]; cbn; set_solver.
  - rewrite run_forward. cbn [fst snd].
    destruct (send _) as [resp|] eqn:Hsend; [|left; cbn; set_solver].
    destruct (ok resp).
    + left. unfold ok_status.
      destruct (json_body resp), (req_verb rq); cbn; set_solver.
    + right. eexists _, resp. split_and!; [by left|done|done].
  - rewrite run_delete_user. cbn [fst snd].
    destruct (send _) as [resp|] eqn:Hsend; [|left; cbn; set_solver].
    destruct (_ || _).
    + left. cbn. set_solver.
    + right. eexists _, resp. split_and!; [by left|done|done].
Qed.

End Routes.

(** ** More about the request bodies and the queries *)

Section Bodies.

Variable cfg : config.
Variable send : call -> option response.
Variable int : string -> option Z.

Implicit Types (d : gmap string json) (j : json) (c : call).

(** X12: [create_user] tests that the two names are there, not what they
    hold: a body with [email] and [username], whatever their values, is
    sent on, restricted to the allow-list. *)
Theorem create_user_presence_only d :
  is_Some (d !! "email") → is_Some (d !! "username") →
  calls (create_user cfg send (Some (JObj d)))
  = [the_call cfg POST (BACKENDLESS_BASE_URL cfg)
       (Some (filter (λ kv, kv.1 ∈ allowed) d))].
Proof.
  intros Hemail Huser. unfold calls. rewrite create_user_object_body.
  rewrite !bool_decide_eq_true_2 by done. cbn [andb].
  by rewrite run_forward.
Qed.

(** X13: a body without [email] or without [username] stops at 400 with no
    call, whatever else it holds. *)
Theorem create_user_missing_required d :
  d !! "email" = None ∨ d !! "username" = None →
  run (create_user cfg send (Some (JObj d)))
  = (Raise (HTTPException 400 "Fields 'email' and 'username' are required"), []).
Proof.
  intros Hmissing. rewrite create_user_object_body.
  destruct Hmissing as [-> | ->].
  - by rewrite (bool_decide_eq_false_2 (is_Some None)) by (by intros [? ?]).
  - rewrite (bool_decide_eq_false_2 (is_Some None)) by (by intros [? ?]).
    by rewrite andb_false_r.
Qed.

(** X14: [update_user] asks for no particular name: one allowed name in
    the body is enough for the call, a PUT to [<base>/<id>] with the
    allowed part of the body. *)
Theorem update_user_one_field_enough (object_id : string) d (k : string) :
  k ∈ allowed → is_Some (d !! k) →
  calls (update_user cfg send object_id (Some (JObj d)))
  = [the_call cfg PUT (BACKENDLESS_BASE_URL cfg +:+ "/" +:+ object_id)
       (Some (filter (λ kv, kv.1 ∈ allowed) d))].
Proof.
  intros Hk [v Hv]. unfold calls. rewrite update_user_object_body.
  rewrite bool_decide_eq_false_2; [by rewrite run_forward|].
  intros Hempty.
  assert (filter (λ kv, kv.1 ∈ allowed) d !! k = Some v) as Hin
    by (by apply map_lookup_filter_Some).
  by rewrite Hempty, lookup_empty in Hin.
Qed.

(** X15: a body with none of the allowed names stops [update_user] at 400
    with no call. *)
Theorem update_user_no_allowed_field (object_id : string) d :
  (∀ k, k ∈ allowed → d !! k = None) →
  run (update_user cfg send object_id (Some (JObj d)))
  = (Raise (HTTPException 400 "No updatable fields provided"), []).
Proof.
  intros Hnone. rewrite update_user_object_body.
  rewrite bool_decide_eq_true_2; [done|].
  apply map_eq. intros k. rewrite lookup_empty.
  apply map_lookup_filter_None.
  destruct (decide (k ∈ allowed)) as [Hin|Hout].
  - left. by apply Hnone.
  - right. by intros v _.
Qed.

(** X16: a body that does not parse, or that parses to a false value
    ([null], [false], [0], [0.0], an empty string, list or object), is
    answered 400 by [create_user] and [update_user], with no call. *)
Theorem falsy_body_rejected (object_id : string) (body : option json) :
  body = None ∨ (∃ j, body = Some j ∧ truthy j = false) →
  http_status (outcome (create_user cfg send body)) = 400
  ∧ calls (create_user cfg send body) = []
  ∧ http_status (outcome (update_user cfg send object_id body)) = 400
  ∧ calls (update_user cfg send object_id body) = [].
Proof.
  unfold outcome, calls. rewrite run_create_user, run_update_user.
  intros [->|(j & -> & Hfalsy)]; [by split_and!|].
  unfold or_else. rewrite Hfalsy. by split_and!.
Qed.

(** X17: a body that is JSON but not an object is never sent on: the
    caller gets 400, or 500 when [pick_user_fields] raises. *)
Theorem non_object_body_never_forwarded (object_id : string) j :
  (∀ d, j ≠ JObj d) →
  calls (create_user cfg send (Some j)) = []
  ∧ calls (update_user cfg send object_id (Some j)) = []
  ∧ http_status (outcome (create_user cfg send (Some j))) ∈ [400; 500]
  ∧ http_status (outcome (update_user cfg send object_id (Some j))) ∈ [400; 500].
Proof.
  intros Hj. unfold calls, outcome.
  destruct (truthy j) eqn:Htruthy.
  - rewrite create_user_non_object_body, update_user_non_object_body by done.
    destruct (existsb (trips j) allowed); cbn [fst snd http_status];
      split_and!; try done; by (left || (right; left)).
  - rewrite run_create_user, run_update_user. unfold or_else. rewrite Htruthy.
    split_and!; try done; by left.
Qed.

(** X18: the identifier of the path goes into the outbound URL as it is,
    after [<base>/], in [get_user], [update_user] and [delete_user]. *)
Theorem object_id_in_url (object_id : string) (body : option json) c :
  c ∈ calls (get_user cfg send object_id)
  ∨ c ∈ calls (update_user cfg send object_id body)
  ∨ c ∈ calls (delete_user cfg send object_id) →
  call_url c = BACKENDLESS_BASE_URL cfg +:+ "/" +:+ object_id.
Proof.
  unfold calls. rewrite run_update_user, run_delete_user.
  change (run (get_user cfg send object_id))
    with (run (let! resp := requests cfg send GET
                 (BACKENDLESS_BASE_URL cfg +:+ "/" +:+ object_id) None in
               relay resp 200)).
  rewrite run_forward. cbn [fst snd].
  intros [Hin|[Hin|Hin]].
  - by apply list_elem_of_singleton in Hin as ->.
  - destruct body as [j|]; [|by apply elem_of_nil in Hin].
    destruct (pick_user_fields _); [|by apply elem_of_nil in Hin].
    destruct (bool_decide _); [by apply elem_of_nil in Hin|].
    rewrite run_forward in Hin.
    by apply list_elem_of_singleton in Hin as ->.
  - by apply list_elem_of_singleton in Hin as ->.
Qed.

(** X19: the credential headers go out together or not at all: after
    [Content-Type] come both, when the two values are set and not empty,
    and none otherwise. *)
Theorem default_headers_shape :
  (∃ app_id api_key,
      APP_ID cfg = Some app_id ∧ API_KEY cfg = Some api_key
      ∧ app_id ≠ "" ∧ api_key ≠ ""
      ∧ DEFAULT_HEADERS cfg
        = [("Content-Type", "application/json");
           ("X-Backendless-Application-Id", app_id);
           ("X-Backendless-API-Key", api_key)])
  ∨ ((APP_ID cfg = None ∨ APP_ID cfg = Some ""
      ∨ API_KEY cfg = None ∨ API_KEY cfg = Some "")
     ∧ DEFAULT_HEADERS cfg = [("Content-Type", "application/json")]).
Proof.
  unfold DEFAULT_HEADERS.
  destruct (APP_ID cfg) as [a|]; [|right; by auto].
  destruct (API_KEY cfg) as [k|]; [|right; by auto].
  cbn [truthy_str].
  destruct (String.eqb_spec a "") as [->|Ha]; [right; by auto|].
  destruct (String.eqb_spec k "") as [->|Hk]; [right; by auto 6|].
  left. by exists a, k.
Qed.

(** X20: the dict [params] of [list_users] starts with [pageSize] and
    [offset], the converted arguments or 50 and 0, has two to four items,
    and no name twice. *)
Theorem list_users_params_keys (args : list (string * string))
    (params : list (string * param)) :
  list_users_params int args = Ok params →
  NoDup params.*1
  ∧ (2 ≤ length params ≤ 4)%nat
  ∧ ∃ page_size offset rest,
      params = ("pageSize", PInt page_size) :: ("offset", PInt offset) :: rest
      ∧ (args_get "pageSize" args = None → page_size = 50)
      ∧ (args_get "offset" args = None → offset = 0)
      ∧ (∀ s, args_get "pageSize" args = Some s → int s = Some page_size)
      ∧ (∀ s, args_get "offset" args = Some s → int s = Some offset).
Proof.
  intros Hparams.
  destruct (list_users_params_items int _ _ Hparams)
    as (p & o & Hp & Ho & ->).
  assert (Hconv : ∀ key dflt n, int_arg int key dflt args = Ok n →
            (args_get key args = None → n = dflt)
            ∧ (∀ s, args_get key args = Some s → int s = Some n)).
  { unfold int_arg. intros key dflt n.
    destruct (args_get key args) as [s|].
    - destruct (int s) eqn:Hs; intros [= <-]. split; [done|].
      by intros ? [= <-].
    - intros [= <-]. by split. }
  destruct (Hconv _ _ _ Hp) as [Hp1 Hp2], (Hconv _ _ _ Ho) as [Ho1 Ho2].
  split_and!.
  - destruct (args_get "where" args) as [w|], (args_get "sortBy" args) as [s|];
      repeat (destruct (String.eqb _ ""));
      cbn [fmap list_fmap app fst]; by apply (bool_decide_unpack _).
  - destruct (args_get "where" args) as [w|], (args_get "sortBy" args) as [s|];
      repeat (destruct (String.eqb _ "")); cbn; lia.
  - destruct (args_get "where" args) as [w|], (args_get "sortBy" args) as [s|];
      repeat (destruct (String.eqb _ "")); cbn; lia.
  - by eexists p, o, _.
Qed.

End Bodies.

(** ** More about the query string *)

Section QueryShape.

Variable cfg : config.
Variable send : call -> option response.

(** [quote_plus] writes safe characters, [%] and [+], and nothing else. *)
Lemma quote_plus_written (s : string) :
  all_chars written_char (quote_plus s) = true.
Proof.
  induction s as [|a s IH]; [reflexivity|].
  destruct a as [[] [] [] [] [] [] [] []]; exact IH.
Qed.

Lemma count_char_absent (p : ascii → bool) (c : ascii) (s : string) :
  all_chars p s = true → p c = false → count_char c s = 0%nat.
Proof.
  intros Hall Hc. induction s as [|a s IH]; [reflexivity|].
  cbn [all_chars count_char] in *.
  apply andb_true_iff in Hall as [Ha Hs].
  destruct (Ascii.eqb_spec c a) as [->|_]; [congruence | by apply IH].
Qed.

Lemma count_char_app (c : ascii) (s t : string) :
  count_char c (s +:+ t) = (count_char c s + count_char c t)%nat.
Proof.
  induction s as [|a s IH]; [reflexivity|].
  change (count_char c (String a (s +:+ t))
          = (count_char c (String a s) + count_char c t)%nat).
  cbn [count_char]. destruct (Ascii.eqb c a); lia.
Qed.

Lemma count_char_quote_plus (c : ascii) (s : string) :
  written_char c = false → count_char c (quote_plus s) = 0%nat.
Proof. apply count_char_absent, quote_plus_written. Qed.

Lemma count_char_join (c : ascii) (parts : list string) (n : nat) :
  (∀ p, p ∈ parts → count_char c p = n) →
  count_char c (join_amp parts)
  = (n * length parts
     + if Ascii.eqb c "&" then length parts - 1 else 0)%nat.
Proof.
  induction parts as [|p parts IH]; intros Hparts.
  - cbn. destruct (Ascii.eqb c "&"); lia.
  - cbn [join_amp length]. destruct parts as [|p' parts].
    + rewrite (Hparts p) by left. cbn. destruct (Ascii.eqb c "&"); lia.
    + rewrite !count_char_app, (Hparts p) by left.
      rewrite IH by (intros q Hq; apply Hparts; by right).
      cbn [count_char length]. destruct (Ascii.eqb c "&"); lia.
Qed.

(** A character that [quote_plus] does not write occurs in
    [urlencode(query)] only as a separator. *)
Lemma count_char_urlencode (query : list (string * param)) (c : ascii) :
  written_char c = false →
  count_char c (urlencode query)
  = ((if Ascii.eqb c "=" then 1 else 0) * length query
     + if Ascii.eqb c "&" then length query - 1 else 0)%nat.
Proof.
  intros Hc. unfold urlencode.
  rewrite (count_char_join c _ (if Ascii.eqb c "=" then 1 else 0)%nat).
  - by rewrite length_map.
  - intros p (kv & -> & _)%list_elem_of_fmap.
    rewrite !count_char_app, !count_char_quote_plus by done.
    cbn [count_char]. by destruct (Ascii.eqb c "=").
Qed.

(** X21: in [urlencode(query)] the names and values cannot bring
    separators of their own: the text has one [=] for each item and one
    [&] between two items, and no space, quote, [?], [#] or [/], whatever
    the names and values are. *)
Theorem urlencode_separators (query : list (string * param)) :
  count_char "&" (urlencode query) = (length query - 1)%nat
  ∧ count_char "=" (urlencode query) = length query
  ∧ ∀ c, c ∈ [" "; "'"; "?"; "#"; "/"]%char →
         count_char c (urlencode query) = 0%nat.
Proof.
  split_and!.
  - rewrite count_char_urlencode by reflexivity. cbn. lia.
  - rewrite count_char_urlencode by reflexivity. cbn. lia.
  - intros c Hc.
    repeat (apply elem_of_cons in Hc as [->|Hc];
            [by rewrite count_char_urlencode by reflexivity|]).
    by apply elem_of_nil in Hc.
Qed.

(** X22: the value of the path cannot add parameters to the query of
    [find_by_email] and [find_by_username]: whatever the value, the query
    has three [name=value] parts, and no quote or space of its own. *)
Theorem find_by_query_shape (value : string) :
  ∃ by_email by_username,
    calls (find_by_email cfg send value)
    = [the_call cfg GET (BACKENDLESS_BASE_URL cfg +:+ "?" +:+ by_email) None]
    ∧ calls (find_by_username cfg send value)
      = [the_call cfg GET (BACKENDLESS_BASE_URL cfg +:+ "?" +:+ by_username) None]
    ∧ count_char "&" by_email = 2%nat ∧ count_char "=" by_email = 3%nat
    ∧ count_char "'" by_email = 0%nat ∧ count_char " " by_email = 0%nat
    ∧ count_char "&" by_username = 2%nat ∧ count_char "=" by_username = 3%nat
    ∧ count_char "'" by_username = 0%nat ∧ count_char " " by_username = 0%nat.
Proof.
  exists (urlencode [("where", PStr ("email='" +:+ value +:+ "'"));
                     ("pageSize", PInt 50); ("offset", PInt 0)]),
         (urlencode [("where", PStr ("username='" +:+ value +:+ "'"));
                     ("pageSize", PInt 50); ("offset", PInt 0)]).
  unfold calls. rewrite run_find_by_email, run_find_by_username, !run_forward.
  split; [reflexivity|]. split; [reflexivity|].
  set (qe := [("where", PStr ("email='" +:+ value +:+ "'"));
              ("pageSize", PInt 50); ("offset", PInt 0)]).
  set (qu := [("where", PStr ("username='" +:+ value +:+ "'"));
              ("pageSize", PInt 50); ("offset", PInt 0)]).
  split_and!; by rewrite count_char_urlencode by reflexivity.
Qed.

End QueryShape.

(** ** Instances *)

Lemma pick_user_fields_any_order_witness :
  pick_fields (reverse allowed) new_user_body ∅ = pick_user_fields new_user_body.
Proof.
  apply (pick_user_fields_any_order (reverse allowed) new_user_body).
  apply reverse_Permutation.
Defined.

Lemma pick_user_fields_not_dict_witness :
  pick_user_fields (JStr "x") = Ok ∅
  ∨ pick_user_fields (JStr "x") = Raise TypeError.
Proof.
  apply (pick_user_fields_not_dict (JStr "x")). intros d. discriminate.
Defined.

Lemma pick_user_fields_raises_witness :
  TypeError = TypeError ∧ ∀ d, JInt 5 ≠ JObj d.
Proof.
  apply (pick_user_fields_raises (JInt 5) TypeError). reflexivity.
Defined.


Lemma exceptions_by_call_witness :
  let h := list_users cfg0 (answer non_authoritative) decimal_int
             [("pageSize", "abc")] in
  (calls h = []
   ∧ (ValueError = TypeError ∨ ValueError = ValueError
      ∨ ∃ msg, ValueError = HTTPException 400 msg))
  ∨ (∃ c, calls h = [c] ∧ answer non_authoritative c = None)
  ∨ (∃ c resp, calls h = [c] ∧ answer non_authoritative c = Some resp
               ∧ ok resp = true ∧ json_body resp = None).
Proof.
  apply (exceptions_by_call cfg0 (answer non_authoritative) decimal_int
           list_bad_page); reflexivity.
Defined.

Lemma success_relayed_witness :
  outcome (create_user cfg0 (answer created) (Some new_user_body))
  = Ok (JObj ∅, 201).
Proof.
  apply (success_relayed cfg0 (answer created) decimal_int post_new _
           post_new_user created (JObj ∅)).
  - reflexivity.
  - discriminate.
  - vm_compute. constructor.
  - reflexivity.
  - reflexivity.
  - reflexivity.
Defined.

Lemma success_without_json_raises_witness :
  outcome (update_user cfg0 (answer no_content) "42" (Some new_user_body))
  = Raise JSONDecodeError
  ∧ http_status (outcome (update_user cfg0 (answer no_content) "42"
                            (Some new_user_body))) = 500.
Proof.
  apply (success_without_json_raises cfg0 (answer no_content) decimal_int
           put_42 _ put_42_call no_content).
  - reflexivity.
  - discriminate.
  - vm_compute. constructor.
  - reflexivity.
  - reflexivity.
  - reflexivity.
Defined.

Lemma unreachable_service_raises_witness :
  outcome (get_user cfg0 unreachable "42") = Raise ConnectionError
  ∧ http_status (outcome (get_user cfg0 unreachable "42")) = 500.
Proof.
  apply (unreachable_service_raises cfg0 unreachable decimal_int get_42 _
           get_42_call).
  - reflexivity.
  - vm_compute. constructor.
  - reflexivity.
Defined.

Lemma status_codes_witness :
  let h := get_user cfg0 (answer not_found_empty) "42" in
  http_status (outcome h) ∈ [200; 201; 400; 500]
  ∨ ∃ c resp, c ∈ calls h ∧ answer not_found_empty c = Some resp
              ∧ http_status (outcome h) = status_code resp.
Proof.
  apply (status_codes cfg0 (answer not_found_empty) decimal_int get_42).
  reflexivity.
Defined.

Lemma create_user_presence_only_witness :
  calls (create_user cfg0 (answer created) (Some (JObj blank_user)))
  = [the_call cfg0 POST (BACKENDLESS_BASE_URL cfg0)
       (Some (filter (λ kv, kv.1 ∈ allowed) blank_user))].
Proof.
  apply (create_user_presence_only cfg0 (answer created) blank_user).
  - exists JNull. reflexivity.
  - exists (JStr ""). reflexivity.
Defined.

Lemma create_user_missing_required_witness :
  run (create_user cfg0 (answer created) (Some (JObj {[ "username" := JStr "a" ]})))
  = (Raise (HTTPException 400 "Fields 'email' and 'username' are required"), []).
Proof.
  apply (create_user_missing_required cfg0 (answer created)
           {[ "username" := JStr "a" ]}).
  left. reflexivity.
Defined.

Lemma update_user_one_field_enough_witness :
  calls (update_user cfg0 (answer created) "42"
           (Some (JObj {[ "password" := JStr "s" ]})))
  = [the_call cfg0 PUT (BACKENDLESS_BASE_URL cfg0 +:+ "/" +:+ "42")
       (Some (filter (λ kv, kv.1 ∈ allowed) {[ "password" := JStr "s" ]}))].
Proof.
  apply (update_user_one_field_enough cfg0 (answer created) "42"
           {[ "password" := JStr "s" ]} "password").
  - apply (bool_decide_unpack _). vm_compute. reflexivity.
  - exists (JStr "s"). reflexivity.
Defined.

Lemma update_user_no_allowed_field_witness :
  run (update_user cfg0 (answer created) "42"
         (Some (JObj {[ "extra" := JStr "drop-me" ]})))
  = (Raise (HTTPException 400 "No updatable fields provided"), []).
Proof.
  apply (update_user_no_allowed_field cfg0 (answer created) "42"
           {[ "extra" := JStr "drop-me" ]}).
  intros k Hk.
  repeat (apply elem_of_cons in Hk as [->|Hk]; [reflexivity|]).
  by apply elem_of_nil in Hk.
Defined.

Lemma falsy_body_rejected_witness :
  http_status (outcome (create_user cfg0 (answer created) (Some (JArr [])))) = 400
  ∧ calls (create_user cfg0 (answer created) (Some (JArr []))) = []
  ∧ http_status (outcome (update_user cfg0 (answer created) "42" (Some (JArr [])))) = 400
  ∧ calls (update_user cfg0 (answer created) "42" (Some (JArr []))) = [].
Proof.
  apply (falsy_body_rejected cfg0 (answer created) "42" (Some (JArr []))).
  right. exists (JArr []). split; reflexivity.
Defined.

Lemma non_object_body_never_forwarded_witness :
  calls (create_user cfg0 (answer created) (Some (JStr "email"))) = []
  ∧ calls (update_user cfg0 (answer created) "42" (Some (JStr "email"))) = []
  ∧ http_status (outcome (create_user cfg0 (answer created) (Some (JStr "email"))))
    ∈ [400; 500]
  ∧ http_status (outcome (update_user cfg0 (answer created) "42" (Some (JStr "email"))))
    ∈ [400; 500].
Proof.
  apply (non_object_body_never_forwarded cfg0 (answer created) "42" (JStr "email")).
  intros d. discriminate.
Defined.

Lemma object_id_in_url_witness :
  call_url get_42_call = BACKENDLESS_BASE_URL cfg0 +:+ "/" +:+ "42".
Proof.
  apply (object_id_in_url cfg0 (answer created) "42" None get_42_call).
  left. vm_compute. constructor.
Defined.

Lemma list_users_params_keys_witness :
  let params := [("pageSize", PInt (-5)); ("offset", PInt 0); ("where", PStr "a")] in
  let args := [("pageSize", "-5"); ("where", "a")] in
  NoDup params.*1
  ∧ (2 ≤ length params ≤ 4)%nat
  ∧ ∃ page_size offset rest,
      params = ("pageSize", PInt page_size) :: ("offset", PInt offset) :: rest
      ∧ (args_get "pageSize" args = None → page_size = 50)
      ∧ (args_get "offset" args = None → offset = 0)
      ∧ (∀ s, args_get "pageSize" args = Some s → decimal_int s = Some page_size)
      ∧ (∀ s, args_get "offset" args = Some s → decimal_int s = Some offset).
Proof.
  apply (list_users_params_keys decimal_int [("pageSize", "-5"); ("where", "a")]).
  reflexivity.
Defined.
